(** * ops-activities-backend: token cache, deposit store and activity filter

    A shallow embedding of the Express servers of the repository:
    - [src/node.js], first server: authorization-code flow with refresh;
    - [src/node.js], second server, and [src/unnamed/part_000], second
      server: client-credentials flow, with the subject filters;
    - [src/unnamed/part_000], first file: the deposit router (the same
      two handlers are repeated in the second server of that file).

    JavaScript values are embedded as an inductive type, the two
    process-wide variables [tokenStorage] and [depositsData] as explicit
    state, the token endpoint as an oracle that is passed in, and [throw]
    as a result type.  The functions of a server are embedded as run
    from their first statement to their return; for the token storage
    of the authorization-code server, requests that overlap at an
    [await] are embedded too, as runs of events. *)

From Stdlib Require Import ZArith Ascii String List Bool Lia.
From stdpp Require Import gmap strings list.

Local Open Scope string_scope.
Set Warnings "-register-all".

(** ** JavaScript values *)

Module JS.

(** Numbers.  The clocks, second counts and element counts the servers
    compute with are integers; [NaN] is kept because arithmetic on a
    missing field produces it. *)
Inductive Number : Type :=
| NaN
| Int (z : Z).

Inductive JsValue : Type :=
| JUndefined
| JNull
| JBool (b : bool)
| JNum (n : Number)
| JStr (s : string)
| JArr (items : list JsValue)
| JObj (fields : list (string * JsValue))
| JNative (name : string).  (* a host object or function, e.g. [Object.prototype.toString] *)

(** ToNumber on strings and on objects is left to the runtime: no
    handler depends on which number comes out. *)
Class Coercions : Type := {
  StringToNumber : string -> Number;
  ObjectToNumber : JsValue -> Number
}.

(** [Date.prototype.toISOString] is left to the runtime too:
    [toISOString t] is the text for a time value [t] in the range of
    [Date], [otherToISOString v] is [new Date(v).toISOString()] for a
    value that is not a number, [None] when it throws. *)
Class Dates : Type := {
  toISOString : Z -> string;
  otherToISOString : JsValue -> option string
}.

(** Converting an object to a primitive throws a TypeError when neither
    its [valueOf] nor its [toString] gives one.  An object of a parsed
    reply inherits both, and the inherited [toString] answers, unless
    the object has an own [toString], which is data and not callable:
    then the conversion throws.  An array is converted through [join],
    which converts its elements. *)
Fixpoint convertible (v : JsValue) : bool :=
  match v with
  | JArr items => forallb convertible items
  | JObj fields =>
      negb (existsb (fun kv => String.eqb (fst kv) "toString"
                               && match snd kv with JNative _ => false | _ => true end)
                    fields)
  | _ => true
  end.

(** ToBoolean *)
Definition truthy (v : JsValue) : bool :=
  match v with
  | JUndefined | JNull => false
  | JBool b => b
  | JNum NaN => false
  | JNum (Int z) => negb (z =? 0)%Z
  | JStr s => negb (String.eqb s EmptyString)
  | JArr _ | JObj _ | JNative _ => true
  end.

Definition ToNumber `{Coercions} (v : JsValue) : Number :=
  match v with
  | JUndefined => NaN
  | JNull => Int 0
  | JBool b => Int (if b then 1 else 0)
  | JNum n => n
  | JStr s => StringToNumber s
  | JArr _ | JObj _ | JNative _ =>
      (* [NaN] also where the conversion throws; [convertible] tells *)
      if convertible v then ObjectToNumber v else NaN
  end.

(** The coercions used for the concrete runs below, none of which
    converts a string or an object: both come out as [NaN]. *)
Definition plainCoercions : Coercions :=
  {| StringToNumber := fun _ => NaN; ObjectToNumber := fun _ => NaN |}.

(** The dates of the concrete runs below, which do not look at the text
    of a date. *)
Definition plainDates : Dates :=
  {| toISOString := fun _ => "2024-05-01T10:00:00.000Z";
     otherToISOString := fun _ => None |}.

Definition add (a b : Number) : Number :=
  match a, b with
  | Int x, Int y => Int (x + y)
  | _, _ => NaN
  end.

Definition mul (a b : Number) : Number :=
  match a, b with
  | Int x, Int y => Int (x * y)
  | _, _ => NaN
  end.

(** [a > b] on numbers: false as soon as one side is [NaN]. *)
Definition gt (a b : Number) : bool :=
  match a, b with
  | Int x, Int y => (y <? x)%Z
  | _, _ => false
  end.

(** [typeof v === 'boolean'] *)
Definition isBoolean (v : JsValue) : bool :=
  match v with JBool _ => true | _ => false end.

(** [Array.isArray(v)] *)
Definition isArray (v : JsValue) : bool :=
  match v with JArr _ => true | _ => false end.

(** [v === s] for a string literal [s] *)
Definition strictEqStr (v : JsValue) (s : string) : bool :=
  match v with JStr t => String.eqb t s | _ => false end.

(** Own properties of an object literal or of a parsed JSON object, in
    insertion order. *)
Fixpoint objGet (k : string) (fields : list (string * JsValue)) : JsValue :=
  match fields with
  | [] => JUndefined
  | (k', v) :: rest => if String.eqb k' k then v else objGet k rest
  end.

(** [{...o, k: v}]: an existing key keeps its place, a new key goes last. *)
Fixpoint objSet (k : string) (v : JsValue) (fields : list (string * JsValue))
  : list (string * JsValue) :=
  match fields with
  | [] => [(k, v)]
  | (k', v') :: rest =>
      if String.eqb k' k then (k, v) :: rest else (k', v') :: objSet k v rest
  end.

(** [String.prototype.startsWith] and [String.prototype.includes] *)
Fixpoint startsWith (needle s : string) : bool :=
  match needle, s with
  | EmptyString, _ => true
  | String _ _, EmptyString => false
  | String a n', String b s' => Ascii.eqb a b && startsWith n' s'
  end.

Fixpoint includes (needle s : string) : bool :=
  startsWith needle s ||
  match s with
  | EmptyString => false
  | String _ s' => includes needle s'
  end.

(** Thrown values: [error.message] and, for a failed HTTP call,
    [error.response] as [(status, data)]. *)
Record JsError : Type := {
  message : string;
  response : option (Z * JsValue)
}.

Definition Error (msg : string) : JsError :=
  {| message := msg; response := None |}.

Definition cannotConvert : JsError := Error "Cannot convert object to primitive value".

Inductive Result (A : Type) : Type :=
| Ok (a : A)
| Throw (e : JsError).
Arguments Ok {A} a.
Arguments Throw {A} e.

Definition bind {A B : Type} (r : Result A) (k : A -> Result B) : Result B :=
  match r with
  | Ok a => k a
  | Throw e => Throw e
  end.

(** The call [res.status(s).json(v)]: the status and the value handed
    to [json]. *)
Record Response : Type := {
  status : Z;
  json : JsValue
}.

End JS.

Import JS.

Notation "x <- r ;; k" := (bind r (fun x => k))
  (at level 100, r at next level, right associativity).

(** ** Deposit store ([src/unnamed/part_000]) *)

Module Deposits.

(** The object literal stored by the PUT handler. *)
Record DepositRecord : Type := {
  depositReturnComplete : bool;
  depositTransferredToNewStudio : bool;
  updatedAt : string
}.

Definition recordFields (r : DepositRecord) : list (string * JsValue) :=
  [("depositReturnComplete", JBool (depositReturnComplete r));
   ("depositTransferredToNewStudio", JBool (depositTransferredToNewStudio r));
   ("updatedAt", JStr (updatedAt r))].

Definition recordValue (r : DepositRecord) : JsValue := JObj (recordFields r).

(** [let depositsData = {}] is an ordinary object: besides its own
    properties it has a prototype, [Object.prototype] at first.  The
    only values the handlers ever assign are deposit records, so the
    prototype is [Object.prototype] ([None]) or a record whose own
    prototype is [Object.prototype]. *)
Record DepositsData : Type := {
  own : gmap string DepositRecord;
  proto : option DepositRecord
}.

Definition depositsData_init : DepositsData := {| own := ∅; proto := None |}.

(** The data properties of [Object.prototype]; all are functions and
    all are writable.  [__proto__] is its one accessor. *)
Definition objectPrototypeNames : list string :=
  ["constructor"; "__defineGetter__"; "__defineSetter__"; "hasOwnProperty";
   "__lookupGetter__"; "__lookupSetter__"; "isPrototypeOf";
   "propertyIsEnumerable"; "toString"; "valueOf"; "toLocaleString"].

Definition objectPrototypeGet (k : string) : JsValue :=
  if existsb (String.eqb k) objectPrototypeNames then JNative k else JUndefined.

(** [depositsData[k]]: own property, then the prototype chain.
    [__proto__] is never an own key (assignment goes through the
    inherited setter), so its getter answers first. *)
Definition getField (d : DepositsData) (k : string) : JsValue :=
  if String.eqb k "__proto__" then
    match proto d with
    | Some r => recordValue r
    | None => JNative "Object.prototype"
    end
  else
    match own d !! k with
    | Some r => recordValue r
    | None =>
        match proto d with
        | Some r =>
            if existsb (fun kv => String.eqb (fst kv) k) (recordFields r)
            then objGet k (recordFields r)
            else objectPrototypeGet k
        | None => objectPrototypeGet k
        end
    end.

(** [depositsData[k] = r]: the inherited [__proto__] setter replaces the
    prototype; every other key becomes (or updates) an own property. *)
Definition setField (d : DepositsData) (k : string) (r : DepositRecord) : DepositsData :=
  if String.eqb k "__proto__" then {| own := own d; proto := Some r |}
  else {| own := <[k := r]> (own d); proto := proto d |}.

Definition defaultDeposits : JsValue :=
  JObj [("depositReturnComplete", JBool false);
        ("depositTransferredToNewStudio", JBool false)].

Definition activityIdRequired : Response :=
  {| status := 400; json := JObj [("error", JStr "Activity ID is required")] |}.

Definition notBoolean : Response :=
  {| status := 400;
     json := JObj [("error", JStr "Both depositReturnComplete and depositTransferredToNewStudio must be boolean values")] |}.

(** [!activityId] for a query parameter: absent or the empty string. *)
Definition missing (activityId : option string) : bool :=
  match activityId with
  | None => true
  | Some a => String.eqb a EmptyString
  end.

(** GET /activity-deposits.  [activityId] is [req.query.activityId]:
    absent, or the string given for the parameter.  No statement of the
    [try] block throws, so its [catch] is left out. *)
Definition getStatus (activityId : option string) (d : DepositsData) : Response :=
  match activityId with
  | None => activityIdRequired
  | Some a =>
      if String.eqb a EmptyString then activityIdRequired
      else
        let stored := getField d a in
        let activityDeposits := if truthy stored then stored else defaultDeposits in
        {| status := 200; json := activityDeposits |}
  end.

(** PUT /activity-deposits.  [body] holds the fields of [req.body], the
    object parsed by [express.json()]; [now] is what
    [new Date().toISOString()] returns when the handler runs. *)
Definition setStatus (activityId : option string) (body : list (string * JsValue))
    (now : string) (d : DepositsData) : Response * DepositsData :=
  let depositReturnComplete := objGet "depositReturnComplete" body in
  let depositTransferredToNewStudio := objGet "depositTransferredToNewStudio" body in
  if missing activityId then (activityIdRequired, d)
  else
    match activityId, depositReturnComplete, depositTransferredToNewStudio with
    | Some a, JBool r, JBool t =>
        let d' := setField d a
          {| depositReturnComplete := r;
             depositTransferredToNewStudio := t;
             updatedAt := now |} in
        ({| status := 200;
            json := JObj [("message", JStr "Deposit status updated successfully");
                          ("data", getField d' a)] |}, d')
    | _, _, _ => (notBoolean, d)
    end.

(** The request body [{depositReturnComplete: r, depositTransferredToNewStudio: t}]. *)
Definition flagsBody (r t : bool) : list (string * JsValue) :=
  [("depositReturnComplete", JBool r); ("depositTransferredToNewStudio", JBool t)].

(** The keys that can be read without having been set: [__proto__],
    the properties of [Object.prototype], and the fields of a record
    once a record is the prototype. *)
Definition inheritable : list string :=
  "__proto__" :: objectPrototypeNames
  ++ ["depositReturnComplete"; "depositTransferredToNewStudio"; "updatedAt"].

(** A PUT request: the query parameter, the body, and the time stamp of
    its handling. *)
Record Put : Type := {
  putId : option string;
  putBody : list (string * JsValue);
  putAt : string
}.

(** The store after a sequence of PUT requests. *)
Fixpoint setAll (d : DepositsData) (puts : list Put) : DepositsData :=
  match puts with
  | [] => d
  | p :: rest => setAll (snd (setStatus (putId p) (putBody p) (putAt p) d)) rest
  end.

End Deposits.

(** ** The token endpoint *)

Module OAuth.

(** The three bodies [axios.post(OAUTH_CONFIG.tokenUrl, tokenData, ...)]
    is called with; client id, secret and redirect URI are fixed by the
    configuration and left out. *)
Inductive TokenRequest : Type :=
| AuthorizationCodeGrant (code : JsValue)
| RefreshTokenGrant (refresh_token : JsValue)
| ClientCredentialsGrant.

(** What an awaited call yields: [response.data] or the error axios
    throws, and the reading of [Date.now()] once the caller resumes. *)
Record Reply : Type := {
  outcome : Result JsValue;
  resumedAt : Z
}.

Definition Endpoint : Type := TokenRequest -> Reply.

Definition nullish (v : JsValue) : bool :=
  match v with JUndefined | JNull => true | _ => false end.

(** [data.k] for the names the servers read ([access_token],
    [refresh_token], [expires_in]); none is inherited, and a primitive
    has none of them. *)
Definition prop (data : JsValue) (k : string) : JsValue :=
  match data with
  | JObj fields => objGet k fields
  | _ => JUndefined
  end.

(** [const { access_token, ... } = response.data] throws a TypeError on
    [null] and [undefined]. *)
Definition cannotDestructure : JsError :=
  Error "Cannot destructure property 'access_token' of 'response.data'".

(** [Date.now() + (expires_in * 1000)]: a number, or the TypeError of
    the multiplication when [expires_in] cannot be converted. *)
Definition expiry `{rt : Coercions} (now : Z) (expires_in : JsValue) : Result JsValue :=
  if convertible expires_in
  then Ok (JNum (add (Int now) (mul (ToNumber expires_in) (Int 1000))))
  else Throw cannotConvert.

(** The awaited call threw, or [response.data] cannot be destructured:
    the function fails before its first write. *)
Definition withoutData (reply : Reply) : bool :=
  match outcome reply with
  | Throw _ => true
  | Ok data => nullish data
  end.

(** The reply, if it is one that gets stored, carries an [expires_in]
    that converts to a number and gives an expiry other than 0. *)
Definition carriesExpiry `{rt : Coercions} (reply : Reply) : bool :=
  match outcome reply with
  | Throw _ => true
  | Ok data =>
      nullish data
      || match ToNumber (prop data "expires_in") with
         | Int n => negb (resumedAt reply + n * 1000 =? 0)%Z
         | NaN => false
         end
  end.

(** The [catch] block shared by the proxy routes; [authMessage] is
    'Authentication required' in the first server of [src/node.js] and
    'Authentication failed' in the client-credentials servers. *)
Definition requiresAuth (authMessage : string) : Response :=
  {| status := 401;
     json := JObj [("error", JStr authMessage); ("requiresAuth", JBool true)] |}.

Definition errorResponse (authMessage : string) (e : JsError) : Response :=
  match response e with
  | Some (401%Z, _) => requiresAuth authMessage
  | _ =>
      if String.eqb (message e) authMessage then requiresAuth authMessage
      else
        let upstreamStatus :=
          match response e with
          | Some (st, _) => if (st =? 0)%Z then 500%Z else st
          | None => 500%Z
          end in
        let upstreamMessage :=
          match response e with
          | Some (_, data) => if nullish data then JUndefined else prop data "message"
          | None => JUndefined
          end in
        {| status := upstreamStatus;
           json := JObj [("error",
                          if truthy upstreamMessage then upstreamMessage
                          else if negb (String.eqb (message e) EmptyString) then JStr (message e)
                          else JStr "Internal server error")] |}
  end.

End OAuth.

Import OAuth.

(** ** Authorization-code server ([src/node.js], first server) *)

Module AuthCode.

Record TokenStorage : Type := {
  accessToken : JsValue;
  refreshToken : JsValue;
  expiresAt : JsValue
}.

Definition cleared : TokenStorage :=
  {| accessToken := JNull; refreshToken := JNull; expiresAt := JNull |}.

(** The process state: the [tokenStorage] variable, and the calls made
    to the token endpoint so far. *)
Record World : Type := {
  tokenStorage : TokenStorage;
  posts : list TokenRequest
}.

Definition world_init : World := {| tokenStorage := cleared; posts := [] |}.

Definition posted (req : TokenRequest) (w : World) : World :=
  {| tokenStorage := tokenStorage w; posts := posts w ++ [req] |}.

Definition stored (ts : TokenStorage) (w : World) : World :=
  {| tokenStorage := ts; posts := posts w |}.

Definition authenticationRequired : JsError := Error "Authentication required".

(** The invariant of the data model, with the tests the code itself
    makes: an access token that is set comes with an expiry that is set. *)
Definition invariant (ts : TokenStorage) : Prop :=
  truthy (accessToken ts) = true -> truthy (expiresAt ts) = true.

Definition internalError : Response :=
  {| status := 500; json := JObj [("error", JStr "Internal server error")] |}.

Section Server.
Context `{rt : Coercions}.

(** [exchangeCodeForTokens] from the point where the awaited call has
    settled: the fields are written one after the other, so a throw of
    the expiry line leaves the two tokens written. *)
Definition storeExchanged (reply : Reply) (w : World) : Result JsValue * World :=
  match outcome reply with
  | Throw e => (Throw e, w)
  | Ok data =>
      if nullish data then (Throw cannotDestructure, w)
      else
        let access_token := prop data "access_token" in
        let refresh_token := prop data "refresh_token" in
        match expiry (resumedAt reply) (prop data "expires_in") with
        | Throw e =>
            (Throw e,
             stored {| accessToken := access_token;
                       refreshToken := refresh_token;
                       expiresAt := expiresAt (tokenStorage w) |} w)
        | Ok expires =>
            (Ok data,
             stored {| accessToken := access_token;
                       refreshToken := refresh_token;
                       expiresAt := expires |} w)
        end
  end.

Definition exchangeCodeForTokens (code : JsValue) (net : Endpoint) (w : World)
  : Result JsValue * World :=
  let req := AuthorizationCodeGrant code in
  storeExchanged (net req) (posted req w).

(** [refreshAccessToken] from the point where the awaited call has
    settled. *)
Definition storeRefreshed (reply : Reply) (w : World) : Result JsValue * World :=
  match outcome reply with
  | Throw e => (Throw e, w)
  | Ok data =>
      if nullish data then (Throw cannotDestructure, w)
      else
        let access_token := prop data "access_token" in
        let refresh_token := prop data "refresh_token" in
        let kept :=
          if truthy refresh_token then refresh_token
          else refreshToken (tokenStorage w) in
        match expiry (resumedAt reply) (prop data "expires_in") with
        | Throw e =>
            (Throw e,
             stored {| accessToken := access_token;
                       refreshToken := kept;
                       expiresAt := expiresAt (tokenStorage w) |} w)
        | Ok expires =>
            (Ok data,
             stored {| accessToken := access_token;
                       refreshToken := kept;
                       expiresAt := expires |} w)
        end
  end.

Definition refreshAccessToken (net : Endpoint) (w : World) : Result JsValue * World :=
  let ts := tokenStorage w in
  if negb (truthy (refreshToken ts)) then (Throw (Error "No refresh token available"), w)
  else
    let req := RefreshTokenGrant (refreshToken ts) in
    storeRefreshed (net req) (posted req w).

(** [tokenStorage.accessToken && tokenStorage.expiresAt > Date.now() + 300000].
    The expiry in the storage is [null] or a number, which the
    comparison converts without a throw. *)
Definition reusable (now : Z) (ts : TokenStorage) : bool :=
  truthy (accessToken ts) && gt (ToNumber (expiresAt ts)) (Int (now + 300000)).

Definition getValidAccessToken (now : Z) (net : Endpoint) (w : World)
  : Result JsValue * World :=
  let ts := tokenStorage w in
  if reusable now ts then (Ok (accessToken ts), w)
  else if truthy (refreshToken ts) then
    match refreshAccessToken net w with
    | (Ok _, w') => (Ok (accessToken (tokenStorage w')), w')
    | (Throw _, w') => (Throw authenticationRequired, stored cleared w')
    end
  else (Throw authenticationRequired, w).

(** POST /auth/logout *)
Definition logout (w : World) : World := stored cleared w.

(** GET /health: the [authenticated] field, [!!tokenStorage.accessToken]. *)
Definition healthAuthenticated (w : World) : bool :=
  truthy (accessToken (tokenStorage w)).

(** GET /auth/status: the constant [isAuthenticated],
    [!!(tokenStorage.accessToken && tokenStorage.expiresAt > Date.now())]. *)
Definition statusAuthenticated (now : Z) (w : World) : bool :=
  truthy (accessToken (tokenStorage w)) &&
  gt (ToNumber (expiresAt (tokenStorage w))) (Int now).

(** GET /auth/callback with [req.query.error] and [req.query.code]. *)
Definition authCallback (error code : JsValue) (net : Endpoint) (w : World) : World :=
  if truthy error then w
  else if negb (truthy code) then w
  else snd (exchangeCodeForTokens code net w).

(** *** Requests that overlap

    A request that awaits the token endpoint is suspended, and other
    requests run before it resumes.  An event is what runs without
    interruption. *)
Inductive Event : Type :=
| TokenRequested (now : Z)
    (* a route calls [getValidAccessToken]: up to its return, its throw,
       or the await inside [refreshAccessToken] *)
| RefreshSettled (reply : Reply)
    (* a suspended refresh resumes: the rest of [refreshAccessToken] and
       of [getValidAccessToken] *)
| CallbackRequested (error code : JsValue)
    (* /auth/callback, up to its 400 or the await of the exchange *)
| ExchangeSettled (reply : Reply)
    (* a suspended exchange resumes *)
| LoggedOut.

(** The world, and how many refreshes and exchanges are suspended. *)
Record Running : Type := {
  current : World;
  refreshing : nat;
  exchanging : nat
}.

Definition idle (w : World) : Running :=
  {| current := w; refreshing := 0; exchanging := 0 |}.

(** [getValidAccessToken] from the point where its refresh has settled. *)
Definition refreshed (reply : Reply) (w : World) : Result JsValue * World :=
  match storeRefreshed reply w with
  | (Ok _, w') => (Ok (accessToken (tokenStorage w')), w')
  | (Throw _, w') => (Throw authenticationRequired, stored cleared w')
  end.

(** One event: the state after it, and the outcomes of the calls of
    [getValidAccessToken] it completes. *)
Definition handle (s : Running) (ev : Event) : Running * list (Result JsValue) :=
  let w := current s in
  let ts := tokenStorage w in
  match ev with
  | TokenRequested now =>
      if reusable now ts then (s, [Ok (accessToken ts)])
      else if truthy (refreshToken ts) then
        ({| current := posted (RefreshTokenGrant (refreshToken ts)) w;
            refreshing := S (refreshing s);
            exchanging := exchanging s |}, [])
      else (s, [Throw authenticationRequired])
  | RefreshSettled reply =>
      match refreshing s with
      | O => (s, [])
      | S k =>
          ({| current := snd (refreshed reply w);
              refreshing := k;
              exchanging := exchanging s |}, [fst (refreshed reply w)])
      end
  | CallbackRequested error code =>
      if truthy error then (s, [])
      else if negb (truthy code) then (s, [])
      else
        ({| current := posted (AuthorizationCodeGrant code) w;
            refreshing := refreshing s;
            exchanging := S (exchanging s) |}, [])
  | ExchangeSettled reply =>
      match exchanging s with
      | O => (s, [])
      | S k =>
          ({| current := snd (storeExchanged reply w);
              refreshing := refreshing s;
              exchanging := k |}, [])
      end
  | LoggedOut =>
      ({| current := logout w;
          refreshing := refreshing s;
          exchanging := exchanging s |}, [])
  end.




(** A reply that settles carries an expiry. *)
Definition wellFormed (ev : Event) : bool :=
  match ev with
  | RefreshSettled reply | ExchangeSettled reply => carriesExpiry reply
  | _ => true
  end.

Section Status.
Context `{dt : Dates}.

(** [tokenStorage.expiresAt ? new Date(tokenStorage.expiresAt).toISOString() : null];
    [None] is the RangeError of [toISOString] on a date out of range. *)
Definition expiresAtText (v : JsValue) : option JsValue :=
  if truthy v then
    match v with
    | JNum (Int t) =>
        if (Z.abs t <=? 8640000000000000)%Z then Some (JStr (toISOString t)) else None
    | other => option_map JStr (otherToISOString other)
    end
  else Some JNull.

(** GET /auth/status.  The handler has no [try]: what it throws goes to
    the error middleware, which answers 500. *)
Definition authStatus (now : Z) (w : World) : Response :=
  let isAuthenticated := statusAuthenticated now w in
  match expiresAtText (expiresAt (tokenStorage w)) with
  | Some text =>
      {| status := 200;
         json := JObj [("authenticated", JBool isAuthenticated); ("expiresAt", text)] |}
  | None => internalError
  end.

End Status.

End Server.

End AuthCode.

(** ** Client-credentials server ([src/unnamed/part_000], second server;
    [src/node.js], second server) *)

Module ClientCredentials.

Record TokenStorage : Type := {
  accessToken : JsValue;
  expiresAt : JsValue
}.

Definition tokenStorage_init : TokenStorage :=
  {| accessToken := JNull; expiresAt := JNull |}.

Record World : Type := {
  tokenStorage : TokenStorage;
  posts : list TokenRequest
}.

Definition world_init : World := {| tokenStorage := tokenStorage_init; posts := [] |}.

Definition posted (req : TokenRequest) (w : World) : World :=
  {| tokenStorage := tokenStorage w; posts := posts w ++ [req] |}.

Definition stored (ts : TokenStorage) (w : World) : World :=
  {| tokenStorage := ts; posts := posts w |}.

Definition authenticationFailed : JsError := Error "Authentication failed".

Definition invariant (ts : TokenStorage) : Prop :=
  truthy (accessToken ts) = true -> truthy (expiresAt ts) = true.

Section Server.
Context `{rt : Coercions}.

Definition getAccessToken (net : Endpoint) (w : World) : Result JsValue * World :=
  let req := ClientCredentialsGrant in
  let w1 := posted req w in
  match outcome (net req) with
  | Throw e => (Throw e, w1)
  | Ok data =>
      if nullish data then (Throw cannotDestructure, w1)
      else
        let access_token := prop data "access_token" in
        match expiry (resumedAt (net req)) (prop data "expires_in") with
        | Throw e =>
            (Throw e,
             stored {| accessToken := access_token;
                       expiresAt := expiresAt (tokenStorage w) |} w1)
        | Ok expires =>
            (Ok access_token,
             stored {| accessToken := access_token; expiresAt := expires |} w1)
        end
  end.

Definition reusable (now : Z) (ts : TokenStorage) : bool :=
  truthy (accessToken ts) && gt (ToNumber (expiresAt ts)) (Int (now + 300000)).

Definition getValidAccessToken (now : Z) (net : Endpoint) (w : World)
  : Result JsValue * World :=
  let ts := tokenStorage w in
  if reusable now ts then (Ok (accessToken ts), w)
  else
    match getAccessToken net w with
    | (Ok token, w') => (Ok token, w')
    | (Throw _, w') => (Throw authenticationFailed, w')
    end.

(** GET /health *)
Definition healthAuthenticated (w : World) : bool :=
  truthy (accessToken (tokenStorage w)).

End Server.

End ClientCredentials.

(** ** Activity list, CLEANING filter ([src/unnamed/part_000],
    GET /api/v3/activities) *)

Module Activities.

Definition inventoryCheck : string := "Inventory Check - Departure".

(** ['activityType=CLEANING and excluding "Inventory Check - Departure"'];
    ["034"] is the double quote. *)
Definition filterCriteria : string :=
  "activityType=CLEANING and excluding "
  ++ String "034"%char inventoryCheck ++ String "034"%char EmptyString.

Definition notAFunction : JsError :=
  Error "activity.subject.includes is not a function".

Definition cannotRead : JsError :=
  Error "Cannot read properties of null (reading 'activityType')".

(** [activity.k] for [activityType] and [subject]: a TypeError on
    [null] and [undefined], the own property of an object, and
    [undefined] on every other value. *)
Definition member (activity : JsValue) (k : string) : Result JsValue :=
  if nullish activity then Throw cannotRead else Ok (prop activity k).

(** [subject.includes(needle)] for a truthy [subject]: the string
    method, the array method, or a TypeError (numbers, [true] and
    parsed objects have no callable [includes]). *)
Definition callIncludes (subject : JsValue) (needle : string) : Result bool :=
  match subject with
  | JStr s => Ok (includes needle s)
  | JArr items => Ok (existsb (fun v => strictEqStr v needle) items)
  | _ => Throw notAFunction
  end.

(** The callback given to [originalData.content.filter]. *)
Definition keep (activity : JsValue) : Result bool :=
  activityType <- member activity "activityType" ;;
  if strictEqStr activityType "CLEANING" then
    subject <- member activity "subject" ;;
    if negb (truthy subject) then Ok true
    else
      found <- callIncludes subject inventoryCheck ;;
      Ok (negb found)
  else Ok false.

(** [Array.prototype.filter] with a callback that may throw. *)
Fixpoint filteredContent (content : list JsValue) : Result (list JsValue) :=
  match content with
  | [] => Ok []
  | activity :: rest =>
      k <- keep activity ;;
      kept <- filteredContent rest ;;
      Ok (if k then activity :: kept else kept)
  end.

Definition count (l : list JsValue) : JsValue := JNum (Int (Z.of_nat (length l))).

(** The object literal [{...originalData, content: ..., ...}]. *)
Definition filteredResponse (originalData : list (string * JsValue))
    (kept : list JsValue) : JsValue :=
  JObj (objSet "filterCriteria" (JStr filterCriteria)
       (objSet "originalTotalElements" (objGet "totalElements" originalData)
       (objSet "filtered" (JBool true)
       (objSet "totalElements" (count kept)
       (objSet "numberOfElements" (count kept)
       (objSet "content" (JArr kept) originalData)))))).

(** What the handler passes to [res.json] once the upstream call has
    returned [response.data], or the error thrown on the way. *)
Definition filterPage (originalData : JsValue) : Result JsValue :=
  if truthy originalData && truthy (prop originalData "content")
     && isArray (prop originalData "content")
  then
    match originalData, prop originalData "content" with
    | JObj fields, JArr content =>
        kept <- filteredContent content ;;
        Ok (filteredResponse fields kept)
    | _, _ => Ok originalData  (* no other value has an array under [content] *)
    end
  else Ok originalData.

(** The response of the route for an upstream payload, through its
    [catch] block. *)
Definition listActivities (originalData : JsValue) : Response :=
  match filterPage originalData with
  | Ok body => {| status := 200; json := body |}
  | Throw e => errorResponse "Authentication failed" e
  end.

(** The rule in the words of the specification: the type is CLEANING
    and the subject does not contain the marker. *)
Definition subjectContains (activity : JsValue) (needle : string) : bool :=
  match prop activity "subject" with
  | JStr s => includes needle s
  | _ => false
  end.

Definition cleaningRule (activity : JsValue) : bool :=
  strictEqStr (prop activity "activityType") "CLEANING" &&
  negb (subjectContains activity inventoryCheck).

(** An activity record as the upstream service sends it: an object
    whose subject is a string, [null] or absent. *)
Definition isActivity (activity : JsValue) : bool :=
  match activity with
  | JObj fields =>
      match objGet "subject" fields with
      | JStr _ | JNull | JUndefined => true
      | _ => false
      end
  | _ => false
  end.

Definition activity (activityType subject : string) : JsValue :=
  JObj [("activityType", JStr activityType); ("subject", JStr subject)].

End Activities.

(** ** Activity list, Inventory Check filter, and activity by id
    ([src/node.js], second server; the route by id is the same in the
    second server of [src/unnamed/part_000]) *)

Module Inventory.

(** ['subject contains "Inventory Check - Departure"'] *)
Definition filterCriteria : string :=
  "subject contains "
  ++ String "034"%char Activities.inventoryCheck ++ String "034"%char EmptyString.

Definition cannotReadSubject (activity : JsValue) : JsError :=
  match activity with
  | JUndefined => Error "Cannot read properties of undefined (reading 'subject')"
  | _ => Error "Cannot read properties of null (reading 'subject')"
  end.

(** The callback [activity => activity.subject &&
    activity.subject.includes('Inventory Check - Departure')], by the
    truthiness of what it returns. *)
Definition keep (activity : JsValue) : Result bool :=
  if nullish activity then Throw (cannotReadSubject activity)
  else
    let subject := prop activity "subject" in
    if truthy subject then Activities.callIncludes subject Activities.inventoryCheck
    else Ok false.

Fixpoint filteredContent (content : list JsValue) : Result (list JsValue) :=
  match content with
  | [] => Ok []
  | activity :: rest =>
      k <- keep activity ;;
      kept <- filteredContent rest ;;
      Ok (if k then activity :: kept else kept)
  end.

Definition filteredResponse (originalData : list (string * JsValue))
    (kept : list JsValue) : JsValue :=
  JObj (objSet "filterCriteria" (JStr filterCriteria)
       (objSet "originalTotalElements" (objGet "totalElements" originalData)
       (objSet "filtered" (JBool true)
       (objSet "totalElements" (Activities.count kept)
       (objSet "numberOfElements" (Activities.count kept)
       (objSet "content" (JArr kept) originalData)))))).

Definition filterPage (originalData : JsValue) : Result JsValue :=
  if truthy originalData && truthy (prop originalData "content")
     && isArray (prop originalData "content")
  then
    match originalData, prop originalData "content" with
    | JObj fields, JArr content =>
        kept <- filteredContent content ;;
        Ok (filteredResponse fields kept)
    | _, _ => Ok originalData
    end
  else Ok originalData.

(** GET /api/v3/activities of the second server of [src/node.js], from
    the upstream payload on. *)
Definition listActivities (originalData : JsValue) : Response :=
  match filterPage originalData with
  | Ok body => {| status := 200; json := body |}
  | Throw e => errorResponse "Authentication failed" e
  end.

(** GET /api/v3/activities/:id of the client-credentials servers, from
    the upstream payload on: [if (activity && activity.activityType !==
    'CLEANING')] answers 404, anything else is passed on. *)
Definition notCleaning (activity : JsValue) : Response :=
  {| status := 404;
     json := JObj [("error", JStr "Activity not found or not a cleaning activity");
                   ("activityType", prop activity "activityType");
                   ("filterCriteria", JStr "activityType=CLEANING")] |}.

Definition getActivity (activity : JsValue) : Response :=
  if truthy activity && negb (strictEqStr (prop activity "activityType") "CLEANING")
  then notCleaning activity
  else {| status := 200; json := activity |}.

End Inventory.

(** ** Query parameters of GET /api/v3/activities (all three servers) *)

Module Query.

(** A value of [req.query] as the query parser builds it: the string
    of a parameter given once, the array of a repeated parameter, the
    object of a bracketed one. *)
Inductive Value : Type :=
| Str (s : string)
| Arr (items : list Value)
| Obj (fields : list (string * Value)).

(** [req.query] as its entries in the order [Object.keys] lists them. *)
Definition Entries : Type := list (string * Value).

Fixpoint get (k : string) (q : Entries) : option Value :=
  match q with
  | [] => None
  | (k', v) :: rest => if String.eqb k' k then Some v else get k rest
  end.

(** The truthiness of [req.query.k]. *)
Definition given (v : option Value) : bool :=
  match v with
  | Some (Str s) => negb (String.eqb s EmptyString)
  | Some _ => true
  | None => false
  end.

(** [req.query.k || d] *)
Definition orDefault (v : option Value) (d : string) : Value :=
  match v with
  | Some x => if given v then x else Str d
  | None => Str d
  end.

Definition reserved : list string := ["dueDate"; "dueDateEnd"; "page"; "size"].

(** [['dueDate', 'dueDateEnd', 'page', 'size'].includes(key)] *)
Definition isReserved (k : string) : bool := existsb (String.eqb k) reserved.

(** [req.query[key]] for a key of [req.query] *)
Definition valueOf (k : string) (q : Entries) : Value :=
  match get k q with
  | Some v => v
  | None => Str "undefined"
  end.

(** The names and values given to [queryParams.append], in order. *)
Definition queryParams (q : Entries) : Entries :=
  ([("dueDate", orDefault (get "dueDate" q) "2015-11-02");
    ("dueDateEnd", orDefault (get "dueDateEnd" q) "2035-11-02");
    ("page", orDefault (get "page" q) "0");
    ("size", orDefault (get "size" q) "100")]
   ++ map (fun k => (k, valueOf k q))
          (List.filter (fun k => negb (isReserved k)) (map fst q)))%list.

(** The string [append] makes of a value: an array is joined with
    commas, an object gives [[object Object]] through the inherited
    [toString], and an object with an own [toString] (a bracketed
    parameter of that name) cannot be converted. *)
Fixpoint render (v : Value) : Result string :=
  match v with
  | Str s => Ok s
  | Arr items =>
      (fix joined (l : list Value) : Result string :=
         match l with
         | [] => Ok EmptyString
         | [x] => render x
         | x :: rest =>
             s <- render x ;;
             t <- joined rest ;;
             Ok (s ++ "," ++ t)
         end) items
  | Obj fields =>
      if existsb (fun kv => String.eqb (fst kv) "toString") fields
      then Throw cannotConvert
      else Ok "[object Object]"
  end.

(** The appends one after the other: the first that throws ends them. *)
Fixpoint renderAll (es : Entries) : Result (list (string * string)) :=
  match es with
  | [] => Ok []
  | (k, v) :: rest =>
      s <- render v ;;
      sent <- renderAll rest ;;
      Ok ((k, s) :: sent)
  end.

(** What [queryParams] holds when the route builds the URL. *)
Definition searchParams (q : Entries) : Result (list (string * string)) :=
  renderAll (queryParams q).

Fixpoint getText (k : string) (sent : list (string * string)) : option string :=
  match sent with
  | [] => None
  | (k', s) :: rest => if String.eqb k' k then Some s else getText k rest
  end.

End Query.

(** ** Proxy routes of the authorization-code server ([src/node.js],
    first server) *)

Module Proxy.

(** [String.prototype.replace(needle, '')]: the first occurrence of
    [needle] is removed. *)
Fixpoint stripPrefix (needle s : string) : option string :=
  match needle, s with
  | EmptyString, _ => Some s
  | String _ _, EmptyString => None
  | String a n', String b s' => if Ascii.eqb a b then stripPrefix n' s' else None
  end.

Fixpoint removeFirst (needle s : string) : string :=
  match stripPrefix needle s with
  | Some rest => rest
  | None =>
      match s with
      | EmptyString => EmptyString
      | String c s' => String c (removeFirst needle s')
      end
  end.

(** [toUpperCase] on a method token, which is ASCII. *)
Definition upper (c : ascii) : ascii :=
  let n := nat_of_ascii c in
  if (97 <=? n)%nat && (n <=? 122)%nat then ascii_of_nat (n - 32) else c.

Fixpoint toUpperCase (s : string) : string :=
  match s with
  | EmptyString => EmptyString
  | String c s' => String (upper c) (toUpperCase s')
  end.

(** [['POST', 'PUT', 'PATCH'].includes(req.method.toUpperCase())] *)
Definition hasBody (method : string) : bool :=
  existsb (String.eqb (toUpperCase method)) ["POST"; "PUT"; "PATCH"].

(** A call to the upstream API: method, URL, the names and values the
    query string is serialised from, the token put after [Bearer], and
    the body if one is sent. *)
Record UpstreamCall : Type := {
  method : string;
  url : string;
  params : list (string * string);
  bearer : JsValue;
  data : option JsValue
}.

(** The upstream API: [response.status] and [response.data], or the
    error axios throws. *)
Definition Upstream : Type := UpstreamCall -> Result (Z * JsValue).

(** What a route leaves behind: its response, the token state, and the
    calls it made to the upstream API. *)
Record Served : Type := {
  answer : Response;
  world : AuthCode.World;
  calls : list UpstreamCall
}.

Section Routes.
Context `{rt : Coercions}.
Variable baseUrl : string.  (* [OAUTH_CONFIG.baseUrl] as the templates render it *)

Definition unauthenticated (e : JsError) (w : AuthCode.World) : Served :=
  {| answer := errorResponse "Authentication required" e; world := w; calls := [] |}.

(** GET /api/v3/activities *)
Definition listActivities (query : Query.Entries) (now : Z) (net : Endpoint)
    (upstream : Upstream) (w : AuthCode.World) : Served :=
  match AuthCode.getValidAccessToken now net w with
  | (Throw e, w') => unauthenticated e w'
  | (Ok accessToken, w') =>
      match Query.searchParams query with
      | Throw e =>
          {| answer := errorResponse "Authentication required" e;
             world := w'; calls := [] |}
      | Ok sent =>
          let call := {| method := "GET";
                         url := baseUrl ++ "/api/v3/activities";
                         params := sent;
                         bearer := accessToken;
                         data := None |} in
          match upstream call with
          | Ok (_, body) =>
              {| answer := {| status := 200; json := body |};
                 world := w'; calls := [call] |}
          | Throw e =>
              {| answer := errorResponse "Authentication required" e;
                 world := w'; calls := [call] |}
          end
      end
  end.

(** GET /api/v3/activities/:id *)
Definition getActivity (id : string) (now : Z) (net : Endpoint)
    (upstream : Upstream) (w : AuthCode.World) : Served :=
  match AuthCode.getValidAccessToken now net w with
  | (Throw e, w') => unauthenticated e w'
  | (Ok accessToken, w') =>
      let call := {| method := "GET";
                     url := baseUrl ++ "/api/v3/activities/" ++ id;
                     params := [];
                     bearer := accessToken;
                     data := None |} in
      match upstream call with
      | Ok (_, body) =>
          {| answer := {| status := 200; json := body |}; world := w'; calls := [call] |}
      | Throw e =>
          {| answer := errorResponse "Authentication required" e;
             world := w'; calls := [call] |}
      end
  end.

(** The URL the generic route calls for [req.originalUrl]. *)
Definition forwardUrl (originalUrl : string) : string :=
  let apiPath := removeFirst "/api" originalUrl in
  baseUrl ++ "/api" ++ apiPath.

(** The generic route [app.use('/api/*', ...)]. *)
Definition forward (reqMethod originalUrl : string) (reqBody : JsValue) (now : Z)
    (net : Endpoint) (upstream : Upstream) (w : AuthCode.World) : Served :=
  match AuthCode.getValidAccessToken now net w with
  | (Throw e, w') => unauthenticated e w'
  | (Ok accessToken, w') =>
      let call := {| method := reqMethod;
                     url := forwardUrl originalUrl;
                     params := [];
                     bearer := accessToken;
                     data := if hasBody reqMethod then Some reqBody else None |} in
      match upstream call with
      | Ok (st, body) =>
          {| answer := {| status := st; json := body |}; world := w'; calls := [call] |}
      | Throw e =>
          {| answer := errorResponse "Authentication required" e;
             world := w'; calls := [call] |}
      end
  end.

End Routes.

End Proxy.

(** ** Sample endpoints and states for the concrete runs *)

Module Samples.

(** A token endpoint that is down, and one that issues [tok-2] for an hour. *)
Definition down : Endpoint := fun _ =>
  {| outcome := Throw {| message := "Request failed with status code 400";
                         response := Some (400%Z, JObj [("error", JStr "invalid_grant")]) |};
     resumedAt := 1000 |}.

Definition issuer : Endpoint := fun _ =>
  {| outcome := Ok (JObj [("access_token", JStr "tok-2"); ("expires_in", JNum (Int 3600))]);
     resumedAt := 1000 |}.

Definition authCodeWorld (token refresh : JsValue) (expires : Z) : AuthCode.World :=
  {| AuthCode.tokenStorage :=
       {| AuthCode.accessToken := token;
          AuthCode.refreshToken := refresh;
          AuthCode.expiresAt := JNum (Int expires) |};
     AuthCode.posts := [] |}.

Definition clientWorld (token : JsValue) (expires : Z) : ClientCredentials.World :=
  {| ClientCredentials.tokenStorage :=
       {| ClientCredentials.accessToken := token;
          ClientCredentials.expiresAt := JNum (Int expires) |};
     ClientCredentials.posts := [] |}.

(** A token endpoint that issues [tok-3] for 300 seconds, and an
    upstream API that cannot be reached. *)
Definition brief : Endpoint := fun _ =>
  {| outcome := Ok (JObj [("access_token", JStr "tok-3"); ("expires_in", JNum (Int 300))]);
     resumedAt := 1000 |}.

(** Token endpoints whose reply has no [expires_in], whose [expires_in]
    cannot be converted, and whose [expires_in] is -10^13. *)
Definition bare : Endpoint := fun _ =>
  {| outcome := Ok (JObj [("access_token", JStr "tok-1")]); resumedAt := 1000 |}.

Definition crooked : Endpoint := fun _ =>
  {| outcome := Ok (JObj [("access_token", JStr "tok-1");
                          ("expires_in", JObj [("toString", JNum (Int 1))])]);
     resumedAt := 1000 |}.

Definition ancient : Endpoint := fun _ =>
  {| outcome := Ok (JObj [("access_token", JStr "tok-1");
                          ("expires_in", JNum (Int (-10000000000000)))]);
     resumedAt := 1714557600000 |}.

Definition unreachable : Proxy.Upstream := fun _ => Throw (Error "connect ECONNREFUSED").

Definition threeActivities : list JsValue :=
  [Activities.activity "CLEANING" "x";
   Activities.activity "CLEANING" "Inventory Check - Departure";
   Activities.activity "OTHER" "x"].

End Samples.

(** * Properties *)

(** ** Objects and strings *)

Lemma objGet_objSet_eq k v fields : objGet k (objSet k v fields) = v.
Proof.
  induction fields as [|[k' v'] rest IH]; simpl.
  - now rewrite String.eqb_refl.
  - destruct (String.eqb k' k) eqn:E; simpl.
    + now rewrite String.eqb_refl.
    + now rewrite E.
Qed.

Lemma objGet_objSet_ne k k' v fields :
  k <> k' -> objGet k' (objSet k v fields) = objGet k' fields.
Proof.
  intros Hne. induction fields as [|[k0 v0] rest IH]; simpl.
  - apply String.eqb_neq in Hne. now rewrite Hne.
  - destruct (String.eqb k0 k) eqn:E; simpl.
    + apply String.eqb_eq in E. subst k0.
      apply String.eqb_neq in Hne. now rewrite Hne.
    + destruct (String.eqb k0 k'); auto.
Qed.

(** Reads the field written last, or one written under the literals
    before it. *)
Ltac read_field :=
  rewrite ?objGet_objSet_ne by discriminate; now rewrite objGet_objSet_eq.

(** ** Deposit store *)

Section DepositStore.
Import Deposits.

Lemma getField_setField_eq d a r : getField (setField d a r) a = recordValue r.
Proof.
  unfold getField, setField.
  destruct (String.eqb a "__proto__") eqn:E; simpl; [reflexivity|].
  now rewrite lookup_insert_eq.
Qed.

(** Away from [__proto__], an assignment is seen under its own key only. *)
Lemma getField_setField_ne d a b r :
  a <> b -> a <> "__proto__" -> getField (setField d a r) b = getField d b.
Proof.
  intros Hab Ha. unfold getField, setField.
  apply String.eqb_neq in Ha. rewrite Ha. simpl.
  destruct (String.eqb b "__proto__"); [reflexivity|].
  now rewrite lookup_insert_ne.
Qed.

Lemma setStatus_booleans a body now d r t :
  a <> EmptyString ->
  objGet "depositReturnComplete" body = JBool r ->
  objGet "depositTransferredToNewStudio" body = JBool t ->
  setStatus (Some a) body now d =
    ({| status := 200;
        json := JObj [("message", JStr "Deposit status updated successfully");
                      ("data", recordValue (Build_DepositRecord r t now))] |},
     setField d a (Build_DepositRecord r t now)).
Proof.
  intros Ha Hr Ht. unfold setStatus, missing.
  apply String.eqb_neq in Ha. rewrite Ha, Hr, Ht.
  now rewrite getField_setField_eq.
Qed.

Lemma getStatus_stored a d r :
  a <> EmptyString ->
  getStatus (Some a) (setField d a r) = {| status := 200; json := recordValue r |}.
Proof.
  intros Ha. unfold getStatus.
  apply String.eqb_neq in Ha. rewrite Ha.
  now rewrite getField_setField_eq.
Qed.

(** C5: after [setStatus a r t], [getStatus a] answers 200 with the
    record holding exactly the flags [r] and [t] and the [updatedAt]
    stamp of the update; a second identical [setStatus] leaves the same
    flags and only moves the stamp. *)
Theorem C5_set_then_get (a : string) (r t : bool) (body : list (string * JsValue))
    (now now' : string) (d : DepositsData) :
  a <> EmptyString ->
  objGet "depositReturnComplete" body = JBool r ->
  objGet "depositTransferredToNewStudio" body = JBool t ->
  let d1 := snd (setStatus (Some a) body now d) in
  let d2 := snd (setStatus (Some a) body now' d1) in
  getStatus (Some a) d1 =
    {| status := 200;
       json := JObj [("depositReturnComplete", JBool r);
                     ("depositTransferredToNewStudio", JBool t);
                     ("updatedAt", JStr now)] |}
  /\ getStatus (Some a) d2 =
    {| status := 200;
       json := JObj [("depositReturnComplete", JBool r);
                     ("depositTransferredToNewStudio", JBool t);
                     ("updatedAt", JStr now')] |}.
Proof.
  intros Ha Hr Ht d1 d2. subst d1 d2.
  rewrite !(setStatus_booleans a body _ _ r t) by assumption.
  cbn [snd]. split; now rewrite getStatus_stored.
Qed.

Lemma C5_set_then_get_witness :
  let body := flagsBody true false in
  let d1 := snd (setStatus (Some "act-17") body "2024-05-01T10:00:00.000Z" depositsData_init) in
  let d2 := snd (setStatus (Some "act-17") body "2024-05-01T10:00:05.000Z" d1) in
  getStatus (Some "act-17") d1 =
    {| status := 200;
       json := JObj [("depositReturnComplete", JBool true);
                     ("depositTransferredToNewStudio", JBool false);
                     ("updatedAt", JStr "2024-05-01T10:00:00.000Z")] |}
  /\ getStatus (Some "act-17") d2 =
    {| status := 200;
       json := JObj [("depositReturnComplete", JBool true);
                     ("depositTransferredToNewStudio", JBool false);
                     ("updatedAt", JStr "2024-05-01T10:00:05.000Z")] |}.
Proof.
  apply (C5_set_then_get "act-17" true false (flagsBody true false)
           "2024-05-01T10:00:00.000Z" "2024-05-01T10:00:05.000Z" depositsData_init).
  - discriminate.
  - reflexivity.
  - reflexivity.
Defined.

(** C6: when either flag of the body is not a boolean, [setStatus]
    answers 400 whatever the activity id is, and the store it leaves is
    the store it found. *)
Theorem C6_non_boolean_rejected (activityId : option string)
    (body : list (string * JsValue)) (now : string) (d : DepositsData) :
  isBoolean (objGet "depositReturnComplete" body) = false
  \/ isBoolean (objGet "depositTransferredToNewStudio" body) = false ->
  status (fst (setStatus activityId body now d)) = 400%Z
  /\ snd (setStatus activityId body now d) = d
  /\ (missing activityId = false -> fst (setStatus activityId body now d) = notBoolean).
Proof.
  intros Hbad. unfold setStatus.
  destruct (missing activityId) eqn:Hm; [simpl; intuition discriminate|].
  destruct activityId as [a|]; [|discriminate].
  destruct (objGet "depositReturnComplete" body) eqn:Er;
    try (simpl; intuition reflexivity).
  destruct (objGet "depositTransferredToNewStudio" body) eqn:Et;
    try (simpl; intuition reflexivity).
  simpl in Hbad. destruct Hbad; discriminate.
Qed.

Lemma C6_non_boolean_rejected_witness :
  let body := [("depositReturnComplete", JStr "true");
               ("depositTransferredToNewStudio", JNull)] in
  status (fst (setStatus (Some "act-17") body "2024-05-01T10:00:00.000Z" depositsData_init)) = 400%Z
  /\ snd (setStatus (Some "act-17") body "2024-05-01T10:00:00.000Z" depositsData_init)
     = depositsData_init
  /\ (missing (Some "act-17") = false ->
      fst (setStatus (Some "act-17") body "2024-05-01T10:00:00.000Z" depositsData_init)
      = notBoolean).
Proof.
  apply (C6_non_boolean_rejected (Some "act-17")
           [("depositReturnComplete", JStr "true");
            ("depositTransferredToNewStudio", JNull)]
           "2024-05-01T10:00:00.000Z" depositsData_init).
  left. reflexivity.
Defined.

End DepositStore.

(** [getStatus] without an activity id answers 400. *)
Lemma getStatus_missing (activityId : option string) (d : Deposits.DepositsData) :
  Deposits.missing activityId = true ->
  Deposits.getStatus activityId d = Deposits.activityIdRequired.
Proof.
  destruct activityId as [a|]; simpl; [|reflexivity].
  unfold Deposits.getStatus. now intros ->.
Qed.

(** A key that cannot be inherited reads as the defaults as long as it
    is not an own key of the store. *)
Lemma getStatus_default (a : string) (d : Deposits.DepositsData) :
  a <> EmptyString ->
  existsb (String.eqb a) Deposits.inheritable = false ->
  Deposits.own d !! a = None ->
  Deposits.getStatus (Some a) d = {| status := 200; json := Deposits.defaultDeposits |}.
Proof.
  intros Ha Hin Hown. unfold Deposits.getStatus, Deposits.getField.
  apply String.eqb_neq in Ha. rewrite Ha, Hown.
  unfold Deposits.inheritable in Hin. cbn [existsb] in Hin.
  apply orb_false_iff in Hin as [Hproto Hin]. rewrite Hproto.
  rewrite existsb_app in Hin. apply orb_false_iff in Hin as [Hobj Hrec].
  unfold Deposits.objectPrototypeGet. rewrite Hobj.
  destruct (Deposits.proto d) as [r|]; [|reflexivity].
  cbn [existsb] in Hrec.
  apply orb_false_iff in Hrec as [Hr Hrec].
  apply orb_false_iff in Hrec as [Ht Hrec].
  apply orb_false_iff in Hrec as [Hu _].
  rewrite String.eqb_sym in Hr, Ht, Hu.
  unfold Deposits.recordFields. cbn [existsb fst].
  now rewrite Hr, Ht, Hu.
Qed.

(** A PUT under another id leaves the own key [a] as it was. *)
Lemma setStatus_own_other (a : string) (activityId : option string)
    (body : list (string * JsValue)) (now : string) (d : Deposits.DepositsData) :
  activityId <> Some a ->
  Deposits.own (snd (Deposits.setStatus activityId body now d)) !! a
  = Deposits.own d !! a.
Proof.
  intros Hne. unfold Deposits.setStatus.
  destruct (Deposits.missing activityId); [reflexivity|].
  destruct activityId as [b|]; [|reflexivity].
  destruct (objGet "depositReturnComplete" body); try reflexivity.
  destruct (objGet "depositTransferredToNewStudio" body); try reflexivity.
  cbn [snd]. unfold Deposits.setField.
  destruct (String.eqb b "__proto__"); [reflexivity|].
  cbn [Deposits.own]. apply lookup_insert_ne. congruence.
Qed.

(** What the handler is written for: an id that cannot be inherited
    and that no PUT since the start of the process has named reads as
    the defaults. *)
Lemma getStatus_never_set (a : string) (puts : list Deposits.Put) :
  a <> EmptyString ->
  existsb (String.eqb a) Deposits.inheritable = false ->
  Forall (fun p => Deposits.putId p <> Some a) puts ->
  Deposits.getStatus (Some a) (Deposits.setAll Deposits.depositsData_init puts)
  = {| status := 200; json := Deposits.defaultDeposits |}.
Proof.
  intros Ha Hin Hputs. apply getStatus_default; [assumption..|].
  assert (Hgen : forall d, Deposits.own d !! a = None ->
                           Deposits.own (Deposits.setAll d puts) !! a = None).
  { induction Hputs as [|p rest Hp _ IH]; intros d Hd; simpl; [assumption|].
    apply IH. now rewrite setStatus_own_other. }
  apply Hgen. apply lookup_empty.
Qed.

(** C7: on the empty store, [getStatus "constructor"] does not answer
    the defaults: the lookup [depositsData[activityId]] finds the
    function inherited from [Object.prototype], which is truthy, and
    hands it to [res.json].  A missing or empty id answers 400. *)
Theorem C7_inherited_key_not_default :
  Deposits.getStatus (Some "constructor") Deposits.depositsData_init
    = {| status := 200; json := JNative "constructor" |}
  /\ Deposits.getStatus (Some "constructor") Deposits.depositsData_init
    <> {| status := 200; json := Deposits.defaultDeposits |}
  /\ Deposits.getStatus (Some "ordinary-id") Deposits.depositsData_init
    = {| status := 200; json := Deposits.defaultDeposits |}
  /\ Deposits.getStatus None Deposits.depositsData_init = Deposits.activityIdRequired
  /\ Deposits.getStatus (Some EmptyString) Deposits.depositsData_init
    = Deposits.activityIdRequired.
Proof. repeat split; try reflexivity. discriminate. Qed.

(** Away from [__proto__], [setStatus a] changes nothing that is read
    under another key [b]. *)
Lemma setStatus_frame (a b : string) (body : list (string * JsValue)) (now : string)
    (d : Deposits.DepositsData) :
  a <> b -> a <> "__proto__" ->
  Deposits.getField (snd (Deposits.setStatus (Some a) body now d)) b
  = Deposits.getField d b.
Proof.
  intros Hab Ha. unfold Deposits.setStatus.
  destruct (Deposits.missing (Some a)); [reflexivity|].
  destruct (objGet "depositReturnComplete" body); try reflexivity.
  destruct (objGet "depositTransferredToNewStudio" body); try reflexivity.
  cbn [snd]. now apply getField_setField_ne.
Qed.

(** C10: [setStatus "__proto__"] replaces the prototype of the store, so
    the key [updatedAt], which was absent and read as the defaults,
    afterwards reads as the stamp of that update. *)
Theorem C10_proto_key_breaks_frame :
  let d := Deposits.depositsData_init in
  let d1 := snd (Deposits.setStatus (Some "__proto__") (Deposits.flagsBody true true)
                   "2024-05-01T10:00:00.000Z" d) in
  "__proto__" <> "updatedAt"
  /\ Deposits.getField d "updatedAt" = JUndefined
  /\ Deposits.getField d1 "updatedAt" = JStr "2024-05-01T10:00:00.000Z"
  /\ Deposits.getStatus (Some "updatedAt") d
     = {| status := 200; json := Deposits.defaultDeposits |}
  /\ Deposits.getStatus (Some "updatedAt") d1
     = {| status := 200; json := JStr "2024-05-01T10:00:00.000Z" |}
  /\ Deposits.own d1 = Deposits.own d.
Proof. repeat split; try reflexivity. discriminate. Qed.

(** ** Token cache *)

Section TokenCache.
Context `{rt : Coercions}.


(** C1: a cached access token that is set (truthy) and expires more
    than 300000 ms after the clock reading is returned as it is, in the
    authorization-code server and in the client-credentials server; the
    world after the call is the world before it, so no call reached the
    token endpoint and the token state is untouched. *)
Theorem C1_cached_token_reused (now e : Z) (net : Endpoint) :
  (now + 300000 < e)%Z ->
  (forall w : AuthCode.World,
      truthy (AuthCode.accessToken (AuthCode.tokenStorage w)) = true ->
      AuthCode.expiresAt (AuthCode.tokenStorage w) = JNum (Int e) ->
      AuthCode.getValidAccessToken now net w
      = (Ok (AuthCode.accessToken (AuthCode.tokenStorage w)), w))
  /\ (forall w : ClientCredentials.World,
      truthy (ClientCredentials.accessToken (ClientCredentials.tokenStorage w)) = true ->
      ClientCredentials.expiresAt (ClientCredentials.tokenStorage w) = JNum (Int e) ->
      ClientCredentials.getValidAccessToken now net w
      = (Ok (ClientCredentials.accessToken (ClientCredentials.tokenStorage w)), w)).
Proof.
  intros Hlt. apply Z.ltb_lt in Hlt. split; intros w Htok Hexp.
  - unfold AuthCode.getValidAccessToken, AuthCode.reusable.
    rewrite Htok, Hexp. simpl. now rewrite Hlt.
  - unfold ClientCredentials.getValidAccessToken, ClientCredentials.reusable.
    rewrite Htok, Hexp. simpl. now rewrite Hlt.
Qed.

(** A conversion that yields a number did not throw. *)
Lemma ToNumber_Int_convertible (v : JsValue) (n : Z) :
  ToNumber v = Int n -> convertible v = true.
Proof.
  unfold ToNumber. destruct v as [| | | | |items|fields|name]; try reflexivity.
  - destruct (convertible (JArr items)); [reflexivity|discriminate].
  - destruct (convertible (JObj fields)); [reflexivity|discriminate].
Qed.

Lemma expiry_Int (now n : Z) (expires_in : JsValue) :
  ToNumber expires_in = Int n ->
  expiry now expires_in = Ok (JNum (Int (now + n * 1000))).
Proof.
  intros Hn. unfold expiry.
  rewrite (ToNumber_Int_convertible _ _ Hn), Hn. reflexivity.
Qed.

Lemma storeRefreshed_posts (reply : Reply) (w : AuthCode.World) :
  AuthCode.posts (snd (AuthCode.storeRefreshed reply w)) = AuthCode.posts w.
Proof.
  unfold AuthCode.storeRefreshed.
  destruct (outcome reply) as [data|err]; [|reflexivity].
  destruct (nullish data); [reflexivity|].
  destruct (expiry _ _); reflexivity.
Qed.

Lemma storeExchanged_posts (reply : Reply) (w : AuthCode.World) :
  AuthCode.posts (snd (AuthCode.storeExchanged reply w)) = AuthCode.posts w.
Proof.
  unfold AuthCode.storeExchanged.
  destruct (outcome reply) as [data|err]; [|reflexivity].
  destruct (nullish data); [reflexivity|].
  destruct (expiry _ _); reflexivity.
Qed.

Lemma AuthCode_refresh_posts (net : Endpoint) (w : AuthCode.World) :
  truthy (AuthCode.refreshToken (AuthCode.tokenStorage w)) = true ->
  AuthCode.posts (snd (AuthCode.refreshAccessToken net w))
  = (AuthCode.posts w
     ++ [RefreshTokenGrant (AuthCode.refreshToken (AuthCode.tokenStorage w))])%list.
Proof.
  intros Hrt. unfold AuthCode.refreshAccessToken. rewrite Hrt. cbn [negb].
  now rewrite storeRefreshed_posts.
Qed.

Lemma ClientCredentials_acquire_posts (net : Endpoint) (w : ClientCredentials.World) :
  ClientCredentials.posts (snd (ClientCredentials.getAccessToken net w))
  = (ClientCredentials.posts w ++ [ClientCredentialsGrant])%list.
Proof.
  unfold ClientCredentials.getAccessToken.
  destruct (outcome (net _)) as [data|err]; [|reflexivity].
  destruct (nullish data); [reflexivity|].
  destruct (expiry _ _); reflexivity.
Qed.

(** C2, as the servers have it: with an access token that is set but
    does not expire more than 300000 ms after the clock reading, the
    client-credentials server calls the token endpoint exactly once;
    the authorization-code server calls it exactly once, with the
    cached refresh token, when one is cached, and otherwise makes no
    call and throws 'Authentication required'. *)
Theorem C2_one_call_inside_buffer (now e : Z) (net : Endpoint) :
  (e <= now + 300000)%Z ->
  (forall w : ClientCredentials.World,
      truthy (ClientCredentials.accessToken (ClientCredentials.tokenStorage w)) = true ->
      ClientCredentials.expiresAt (ClientCredentials.tokenStorage w) = JNum (Int e) ->
      ClientCredentials.posts (snd (ClientCredentials.getValidAccessToken now net w))
      = (ClientCredentials.posts w ++ [ClientCredentialsGrant])%list)
  /\ (forall w : AuthCode.World,
      truthy (AuthCode.accessToken (AuthCode.tokenStorage w)) = true ->
      AuthCode.expiresAt (AuthCode.tokenStorage w) = JNum (Int e) ->
      truthy (AuthCode.refreshToken (AuthCode.tokenStorage w)) = true ->
      AuthCode.posts (snd (AuthCode.getValidAccessToken now net w))
      = (AuthCode.posts w
         ++ [RefreshTokenGrant (AuthCode.refreshToken (AuthCode.tokenStorage w))])%list)
  /\ (forall w : AuthCode.World,
      truthy (AuthCode.accessToken (AuthCode.tokenStorage w)) = true ->
      AuthCode.expiresAt (AuthCode.tokenStorage w) = JNum (Int e) ->
      truthy (AuthCode.refreshToken (AuthCode.tokenStorage w)) = false ->
      AuthCode.getValidAccessToken now net w
      = (Throw AuthCode.authenticationRequired, w)).
Proof.
  intros Hle. apply Z.ltb_ge in Hle. repeat split.
  - intros w Htok Hexp.
    unfold ClientCredentials.getValidAccessToken, ClientCredentials.reusable.
    rewrite Htok, Hexp. simpl. rewrite Hle.
    pose proof (ClientCredentials_acquire_posts net w) as Hp.
    destruct (ClientCredentials.getAccessToken net w) as [[tok|err] w']; exact Hp.
  - intros w Htok Hexp Hrt.
    unfold AuthCode.getValidAccessToken, AuthCode.reusable.
    rewrite Htok, Hexp, Hrt. simpl. rewrite Hle.
    pose proof (AuthCode_refresh_posts net w Hrt) as Hp.
    destruct (AuthCode.refreshAccessToken net w) as [[data|err] w']; exact Hp.
  - intros w Htok Hexp Hrt.
    unfold AuthCode.getValidAccessToken, AuthCode.reusable.
    rewrite Htok, Hexp, Hrt. simpl. now rewrite Hle.
Qed.

End TokenCache.

Section RefreshFailure.
Context `{rt : Coercions}.
Import AuthCode.

Lemma reusable_cleared (now : Z) : reusable now cleared = false.
Proof. reflexivity. Qed.



Lemma reusable_no_token (now : Z) (ts : TokenStorage) :
  truthy (accessToken ts) = false -> reusable now ts = false.
Proof. intros Hno. unfold reusable. now rewrite Hno. Qed.



(** Uninterrupted, [getValidAccessToken] is the request followed at
    once by the settling of its refresh. *)
Lemma getValidAccessToken_uninterrupted (now : Z) (net : Endpoint) (w : World) :
  getValidAccessToken now net w
  = match snd (handle (idle w) (TokenRequested now)) with
    | [r] => (r, w)
    | _ =>
        refreshed (net (RefreshTokenGrant (refreshToken (tokenStorage w))))
                  (current (fst (handle (idle w) (TokenRequested now))))
    end.
Proof.
  unfold getValidAccessToken, handle, idle. cbn [current refreshing exchanging].
  destruct (reusable now (tokenStorage w)); [reflexivity|].
  destruct (truthy (refreshToken (tokenStorage w))) eqn:Hrt; [|reflexivity].
  cbn [fst snd current]. unfold refreshAccessToken, refreshed. rewrite Hrt. reflexivity.
Qed.



(** The proxy routes answer 'Authentication required' with 401 and
    [requiresAuth: true]. *)
Lemma authenticationRequired_401 :
  errorResponse "Authentication required" authenticationRequired
  = {| status := 401;
       json := JObj [("error", JStr "Authentication required");
                     ("requiresAuth", JBool true)] |}.
Proof. reflexivity. Qed.

(** A callback whose exchange yields a token that is set and expires
    late enough ends the failures: the next request gets that token. *)
Lemma callback_restores (code data : JsValue) (net net' : Endpoint) (now n : Z)
    (w : World) :
  truthy code = true ->
  outcome (net (AuthorizationCodeGrant code)) = Ok data ->
  nullish data = false ->
  truthy (prop data "access_token") = true ->
  ToNumber (prop data "expires_in") = Int n ->
  (now + 300000 < resumedAt (net (AuthorizationCodeGrant code)) + n * 1000)%Z ->
  fst (getValidAccessToken now net' (authCallback JUndefined code net w))
  = Ok (prop data "access_token").
Proof.
  intros Hcode Hout Hdata Htok Hn Hlt.
  unfold authCallback, exchangeCodeForTokens, storeExchanged.
  rewrite Hcode, Hout, Hdata. cbn [truthy negb].
  rewrite (expiry_Int _ n _ Hn). cbn [snd].
  unfold getValidAccessToken, reusable.
  cbn [stored tokenStorage accessToken expiresAt ToNumber gt andb].
  rewrite Htok. apply Z.ltb_lt in Hlt. cbn [andb]. now rewrite Hlt.
Qed.

End RefreshFailure.

Section TokenInvariant.
Context `{rt : Coercions}.

Lemma storeExchanged_invariant (reply : Reply) (w : AuthCode.World) :
  carriesExpiry reply = true ->
  AuthCode.invariant (AuthCode.tokenStorage w) ->
  AuthCode.invariant (AuthCode.tokenStorage (snd (AuthCode.storeExchanged reply w))).
Proof.
  unfold carriesExpiry, AuthCode.storeExchanged. intros Hwf Hinv.
  destruct (outcome reply) as [data|err]; [|exact Hinv].
  destruct (nullish data); [exact Hinv|]. cbn [orb] in Hwf.
  destruct (ToNumber (prop data "expires_in")) as [|n] eqn:Hn; [discriminate|].
  rewrite (expiry_Int _ n _ Hn). intros _. cbn. exact Hwf.
Qed.

Lemma storeRefreshed_invariant (reply : Reply) (w : AuthCode.World) :
  carriesExpiry reply = true ->
  AuthCode.invariant (AuthCode.tokenStorage w) ->
  AuthCode.invariant (AuthCode.tokenStorage (snd (AuthCode.storeRefreshed reply w))).
Proof.
  unfold carriesExpiry, AuthCode.storeRefreshed. intros Hwf Hinv.
  destruct (outcome reply) as [data|err]; [|exact Hinv].
  destruct (nullish data); [exact Hinv|]. cbn [orb] in Hwf.
  destruct (ToNumber (prop data "expires_in")) as [|n] eqn:Hn; [discriminate|].
  rewrite (expiry_Int _ n _ Hn). intros _. cbn. exact Hwf.
Qed.

Lemma cleared_invariant : AuthCode.invariant AuthCode.cleared.
Proof. intros Habs. discriminate Habs. Qed.

Lemma refreshed_invariant (reply : Reply) (w : AuthCode.World) :
  carriesExpiry reply = true ->
  AuthCode.invariant (AuthCode.tokenStorage w) ->
  AuthCode.invariant (AuthCode.tokenStorage (snd (AuthCode.refreshed reply w))).
Proof.
  intros Hwf Hinv. unfold AuthCode.refreshed.
  pose proof (storeRefreshed_invariant reply w Hwf Hinv) as Hr.
  destruct (AuthCode.storeRefreshed reply w) as [[data|err] w'];
    [exact Hr|exact cleared_invariant].
Qed.

(** C8, at the inputs where it fails.  A reply without [expires_in]
    is stored with the expiry [NaN], which every test the servers make
    of the expiry reads as not set; a reply whose [expires_in] cannot
    be converted makes the expiry line throw when the access token is
    already written, and the expiry stays [null].  In each case the
    access token is set and the expiry is not, after a code exchange
    and after a client-credentials acquisition started from the empty
    storage. *)
Theorem C8_expiry_missing_after_store :
  let exchanged := AuthCode.authCallback JUndefined (JStr "code-1") Samples.bare
                     AuthCode.world_init in
  let acquired := snd (ClientCredentials.getValidAccessToken 1000 Samples.bare
                         ClientCredentials.world_init) in
  let broken := AuthCode.authCallback JUndefined (JStr "code-1") Samples.crooked
                  AuthCode.world_init in
  let halfway := snd (ClientCredentials.getValidAccessToken 1000 Samples.crooked
                        ClientCredentials.world_init) in
  (AuthCode.tokenStorage exchanged
   = {| AuthCode.accessToken := JStr "tok-1";
        AuthCode.refreshToken := JUndefined;
        AuthCode.expiresAt := JNum NaN |}
   /\ ~ AuthCode.invariant (AuthCode.tokenStorage exchanged))
  /\ (ClientCredentials.tokenStorage acquired
      = {| ClientCredentials.accessToken := JStr "tok-1";
           ClientCredentials.expiresAt := JNum NaN |}
      /\ ~ ClientCredentials.invariant (ClientCredentials.tokenStorage acquired))
  /\ (AuthCode.tokenStorage broken
      = {| AuthCode.accessToken := JStr "tok-1";
           AuthCode.refreshToken := JUndefined;
           AuthCode.expiresAt := JNull |}
      /\ ~ AuthCode.invariant (AuthCode.tokenStorage broken))
  /\ (ClientCredentials.tokenStorage halfway
      = {| ClientCredentials.accessToken := JStr "tok-1";
           ClientCredentials.expiresAt := JNull |}
      /\ ~ ClientCredentials.invariant (ClientCredentials.tokenStorage halfway)).
Proof.
  repeat split; intros Hinv; specialize (Hinv eq_refl); discriminate Hinv.
Qed.

(** What holds of the invariant: an event whose reply, if it has one,
    carries an [expires_in] that converts to a number and gives an
    expiry other than 0 keeps it, and so do [getValidAccessToken] of
    both servers and the callback against an endpoint whose replies
    are such.  The initial storages satisfy it. *)
Theorem invariant_kept_by_replies_with_expiry :
  AuthCode.invariant (AuthCode.tokenStorage AuthCode.world_init)
  /\ ClientCredentials.invariant (ClientCredentials.tokenStorage ClientCredentials.world_init)
  /\ (forall (s : AuthCode.Running) (ev : AuthCode.Event),
        AuthCode.wellFormed ev = true ->
        AuthCode.invariant (AuthCode.tokenStorage (AuthCode.current s)) ->
        AuthCode.invariant
          (AuthCode.tokenStorage (AuthCode.current (fst (AuthCode.handle s ev)))))
  /\ (forall (net : Endpoint),
        (forall req, carriesExpiry (net req) = true) ->
        (forall (now : Z) (w : AuthCode.World),
            AuthCode.invariant (AuthCode.tokenStorage w) ->
            AuthCode.invariant
              (AuthCode.tokenStorage (snd (AuthCode.getValidAccessToken now net w))))
        /\ (forall (error code : JsValue) (w : AuthCode.World),
              AuthCode.invariant (AuthCode.tokenStorage w) ->
              AuthCode.invariant
                (AuthCode.tokenStorage (AuthCode.authCallback error code net w)))
        /\ (forall (now : Z) (w : ClientCredentials.World),
              ClientCredentials.invariant (ClientCredentials.tokenStorage w) ->
              ClientCredentials.invariant
                (ClientCredentials.tokenStorage
                   (snd (ClientCredentials.getValidAccessToken now net w))))).
Proof.
  split; [exact cleared_invariant|].
  split; [intros Habs; discriminate Habs|].
  split.
  { intros s [now|reply|error code|reply|] Hwf Hinv; cbn [AuthCode.handle].
    - destruct (AuthCode.reusable now _); [exact Hinv|].
      destruct (truthy (AuthCode.refreshToken _)); exact Hinv.
    - destruct (AuthCode.refreshing s); [exact Hinv|].
      cbn [fst AuthCode.current]. now apply refreshed_invariant.
    - destruct (truthy error); [exact Hinv|].
      destruct (negb (truthy code)); exact Hinv.
    - destruct (AuthCode.exchanging s); [exact Hinv|].
      cbn [fst AuthCode.current]. now apply storeExchanged_invariant.
    - exact cleared_invariant. }
  intros net Hnet. split; [|split].
  - intros now w Hinv. unfold AuthCode.getValidAccessToken.
    destruct (AuthCode.reusable now _); [exact Hinv|].
    destruct (truthy (AuthCode.refreshToken _)) eqn:Hrt; [|exact Hinv].
    unfold AuthCode.refreshAccessToken. rewrite Hrt. cbn [negb].
    apply (refreshed_invariant _ (AuthCode.posted _ w)); [apply Hnet|exact Hinv].
  - intros error code w Hinv. unfold AuthCode.authCallback.
    destruct (truthy error); [exact Hinv|].
    destruct (negb (truthy code)); [exact Hinv|].
    unfold AuthCode.exchangeCodeForTokens.
    apply (storeExchanged_invariant _ (AuthCode.posted _ w)); [apply Hnet|exact Hinv].
  - intros now w Hinv. unfold ClientCredentials.getValidAccessToken.
    destruct (ClientCredentials.reusable now _); [exact Hinv|].
    unfold ClientCredentials.getAccessToken.
    pose proof (Hnet ClientCredentialsGrant) as Hwf. unfold carriesExpiry in Hwf.
    destruct (outcome (net ClientCredentialsGrant)) as [data|err]; [|exact Hinv].
    destruct (nullish data); [exact Hinv|]. cbn [orb] in Hwf.
    destruct (ToNumber (prop data "expires_in")) as [|n] eqn:Hn; [discriminate|].
    rewrite (expiry_Int _ n _ Hn). intros _. cbn. exact Hwf.
Qed.

Section Status.
Context `{dt : Dates}.

(** C9, at the input where it fails.  After a callback whose exchange
    returned a token with [expires_in] = -10^13, the stored expiry is
    far in the past and out of the range of [Date]: the access token is
    set and /health reports [true], but /auth/status does not report
    [authenticated: false]: [toISOString] throws and the answer is 500
    with no [authenticated] field. *)
Theorem C9_status_throws_out_of_range :
  let w := AuthCode.authCallback JUndefined (JStr "code-1") Samples.ancient
             AuthCode.world_init in
  let now := 1714557600000%Z in
  AuthCode.accessToken (AuthCode.tokenStorage w) = JStr "tok-1"
  /\ AuthCode.expiresAt (AuthCode.tokenStorage w) = JNum (Int (-9998285442400000))
  /\ (-9998285442400000 < now)%Z
  /\ AuthCode.healthAuthenticated w = true
  /\ AuthCode.statusAuthenticated now w = false
  /\ AuthCode.authStatus now w
     = {| status := 500; json := JObj [("error", JStr "Internal server error")] |}
  /\ prop (json (AuthCode.authStatus now w)) "authenticated" = JUndefined.
Proof. repeat split. Qed.

(** What holds of the two routes: with an expiry in the range of
    [Date], /auth/status answers 200 and reports [authenticated] exactly
    when the access token is set and the expiry is after the clock,
    while /health reports [true] exactly when the access token is set,
    whatever the expiry. *)
Theorem health_and_status_in_range (w : AuthCode.World) (now e : Z) :
  AuthCode.expiresAt (AuthCode.tokenStorage w) = JNum (Int e) ->
  (Z.abs e <= 8640000000000000)%Z ->
  AuthCode.healthAuthenticated w = truthy (AuthCode.accessToken (AuthCode.tokenStorage w))
  /\ status (AuthCode.authStatus now w) = 200%Z
  /\ prop (json (AuthCode.authStatus now w)) "authenticated"
     = JBool (truthy (AuthCode.accessToken (AuthCode.tokenStorage w)) && (now <? e)%Z)
  /\ (truthy (AuthCode.accessToken (AuthCode.tokenStorage w)) = true -> (e <= now)%Z ->
      AuthCode.healthAuthenticated w = true
      /\ prop (json (AuthCode.authStatus now w)) "authenticated" = JBool false).
Proof.
  intros Hexp Hrange.
  assert (Hfield : status (AuthCode.authStatus now w) = 200%Z
            /\ prop (json (AuthCode.authStatus now w)) "authenticated"
               = JBool (truthy (AuthCode.accessToken (AuthCode.tokenStorage w))
                        && (now <? e)%Z)).
  { unfold AuthCode.authStatus, AuthCode.expiresAtText, AuthCode.statusAuthenticated.
    rewrite Hexp. cbn [truthy ToNumber gt].
    apply Z.leb_le in Hrange. rewrite Hrange.
    destruct (negb (e =? 0)%Z); split; reflexivity. }
  destruct Hfield as [Hstatus Hauth].
  split; [reflexivity|]. split; [exact Hstatus|]. split; [exact Hauth|].
  intros Htok Hpast. unfold AuthCode.healthAuthenticated. split; [exact Htok|].
  rewrite Hauth, Htok. apply Z.ltb_ge in Hpast. now rewrite Hpast.
Qed.

End Status.

End TokenInvariant.

(** ** Activity filter *)

Section ActivityFilter.
Import Activities.

(** On an activity record the callback does not throw and decides as
    the rule of the specification does. *)
Lemma keep_rule (a : JsValue) : isActivity a = true -> keep a = Ok (cleaningRule a).
Proof.
  destruct a as [| | | | |items|fields|name]; try discriminate.
  unfold isActivity, keep, cleaningRule, subjectContains, member. simpl.
  destruct (strictEqStr (objGet "activityType" fields) "CLEANING"); [|reflexivity].
  simpl. destruct (objGet "subject" fields) as [| | | |s| | |]; try discriminate;
    try reflexivity.
  intros _. simpl. destruct (String.eqb s EmptyString) eqn:Es; simpl; [|reflexivity].
  apply String.eqb_eq in Es. subst s. reflexivity.
Qed.

Lemma filteredContent_rule (content : list JsValue) :
  forallb isActivity content = true ->
  filteredContent content = Ok (List.filter cleaningRule content).
Proof.
  induction content as [|a rest IH]; simpl; [reflexivity|].
  intros Hall. apply andb_true_iff in Hall as [Ha Hrest].
  rewrite (keep_rule a Ha), (IH Hrest). reflexivity.
Qed.

Lemma listActivities_filtered (fields : list (string * JsValue)) (content : list JsValue) :
  objGet "content" fields = JArr content ->
  forallb isActivity content = true ->
  listActivities (JObj fields)
  = {| status := 200;
       json := filteredResponse fields (List.filter cleaningRule content) |}.
Proof.
  intros Hc Hall. unfold listActivities, filterPage. simpl.
  rewrite Hc. simpl. now rewrite (filteredContent_rule content Hall).
Qed.

(** C4, as the route has it: for an upstream payload whose [content] is
    an array of activity records, the response is 200 and its [content]
    holds, in order, exactly the records whose [activityType] is
    "CLEANING" and whose subject does not contain "Inventory Check -
    Departure"; [numberOfElements] and [totalElements] are the number
    of records kept, [filtered] is [true], [filterCriteria] is the text
    of the rule, [originalTotalElements] is the [totalElements] field of
    the upstream payload, and every other field of the payload is
    passed on.  On the payload with the three records of the example
    and [totalElements] 3, only the first record is kept, with
    [totalElements] 1, [originalTotalElements] 3 and [filtered] true. *)
Theorem C4_cleaning_filter :
  (forall (fields : list (string * JsValue)) (content : list JsValue),
      objGet "content" fields = JArr content ->
      forallb isActivity content = true ->
      let kept := List.filter cleaningRule content in
      let out := json (listActivities (JObj fields)) in
      status (listActivities (JObj fields)) = 200%Z
      /\ prop out "content" = JArr kept
      /\ prop out "numberOfElements" = JNum (Int (Z.of_nat (length kept)))
      /\ prop out "totalElements" = JNum (Int (Z.of_nat (length kept)))
      /\ prop out "filtered" = JBool true
      /\ prop out "originalTotalElements" = objGet "totalElements" fields
      /\ prop out "filterCriteria" = JStr filterCriteria
      /\ forall k : string,
          ~ In k ["content"; "numberOfElements"; "totalElements"; "filtered";
                  "originalTotalElements"; "filterCriteria"] ->
          prop out k = objGet k fields)
  /\ listActivities
       (JObj [("content", JArr [activity "CLEANING" "x";
                                activity "CLEANING" "Inventory Check - Departure";
                                activity "OTHER" "x"]);
              ("totalElements", JNum (Int 3))])
     = {| status := 200;
          json := JObj [("content", JArr [activity "CLEANING" "x"]);
                        ("totalElements", JNum (Int 1));
                        ("numberOfElements", JNum (Int 1));
                        ("filtered", JBool true);
                        ("originalTotalElements", JNum (Int 3));
                        ("filterCriteria", JStr filterCriteria)] |}.
Proof.
  split; [|reflexivity].
  intros fields content Hc Hall kept out. subst out.
  rewrite (listActivities_filtered fields content Hc Hall). fold kept.
  unfold filteredResponse, count. cbn [status json prop].
  split; [reflexivity|].
  repeat split; try read_field.
  - intros k Hk. simpl in Hk.
    rewrite !objGet_objSet_ne; [reflexivity|intros <-; apply Hk; tauto..].
Qed.

End ActivityFilter.

(** ** Concrete runs *)

Section ConcreteRuns.
Import Samples.

Lemma C1_cached_token_reused_witness :
  AuthCode.getValidAccessToken (rt := plainCoercions) 0 down
    (authCodeWorld (JStr "tok-1") (JStr "ref-1") 600000)
  = (Ok (JStr "tok-1"), authCodeWorld (JStr "tok-1") (JStr "ref-1") 600000)
  /\ ClientCredentials.getValidAccessToken (rt := plainCoercions) 0 down
       (clientWorld (JStr "tok-1") 600000)
     = (Ok (JStr "tok-1"), clientWorld (JStr "tok-1") 600000).
Proof.
  assert (Hlater : (0 + 300000 < 600000)%Z) by reflexivity.
  destruct (C1_cached_token_reused (rt := plainCoercions) 0 600000 down Hlater)
    as [Hauth Hclient].
  split.
  - apply (Hauth (authCodeWorld (JStr "tok-1") (JStr "ref-1") 600000)); reflexivity.
  - apply (Hclient (clientWorld (JStr "tok-1") 600000)); reflexivity.
Defined.

(** C2 as stated fails in the authorization-code server: after a
    callback whose exchange returned an access token valid for 240 s
    and no refresh token, a request at the same clock reading finds the
    token set and 4 minutes from expiry, makes no call to the token
    endpoint and throws. *)
Lemma C2_counterexample :
  let short : Endpoint := fun _ =>
    {| outcome := Ok (JObj [("access_token", JStr "tok-1"); ("expires_in", JNum (Int 240))]);
       resumedAt := 0 |} in
  let w := AuthCode.authCallback (rt := plainCoercions) JUndefined (JStr "code-1") short
             AuthCode.world_init in
  truthy (AuthCode.accessToken (AuthCode.tokenStorage w)) = true
  /\ AuthCode.expiresAt (AuthCode.tokenStorage w) = JNum (Int (0 + 240000))
  /\ AuthCode.posts (snd (AuthCode.getValidAccessToken (rt := plainCoercions) 0 short w))
     = AuthCode.posts w
  /\ fst (AuthCode.getValidAccessToken (rt := plainCoercions) 0 short w)
     = Throw AuthCode.authenticationRequired.
Proof. repeat split. Qed.

Lemma C2_one_call_inside_buffer_witness :
  ClientCredentials.posts
    (snd (ClientCredentials.getValidAccessToken (rt := plainCoercions) 0 issuer
            (clientWorld (JStr "tok-1") 240000)))
  = [ClientCredentialsGrant]
  /\ AuthCode.posts
       (snd (AuthCode.getValidAccessToken (rt := plainCoercions) 0 issuer
               (authCodeWorld (JStr "tok-1") (JStr "ref-1") 240000)))
     = [RefreshTokenGrant (JStr "ref-1")]
  /\ AuthCode.getValidAccessToken (rt := plainCoercions) 0 issuer
       (authCodeWorld (JStr "tok-1") JNull 240000)
     = (Throw AuthCode.authenticationRequired, authCodeWorld (JStr "tok-1") JNull 240000).
Proof.
  assert (Hinside : (240000 <= 0 + 300000)%Z) by discriminate.
  destruct (C2_one_call_inside_buffer (rt := plainCoercions) 0 240000 issuer Hinside)
    as (Hclient & Hrefresh & Hnone).
  split; [|split].
  - apply (Hclient (clientWorld (JStr "tok-1") 240000)); reflexivity.
  - apply (Hrefresh (authCodeWorld (JStr "tok-1") (JStr "ref-1") 240000)); reflexivity.
  - apply (Hnone (authCodeWorld (JStr "tok-1") JNull 240000)); reflexivity.
Defined.



Lemma invariant_kept_by_replies_with_expiry_witness :
  AuthCode.invariant
    (AuthCode.tokenStorage
       (AuthCode.authCallback (rt := plainCoercions) JUndefined (JStr "code-1") issuer
          AuthCode.world_init))
  /\ ClientCredentials.invariant
       (ClientCredentials.tokenStorage
          (snd (ClientCredentials.getValidAccessToken (rt := plainCoercions) 0 issuer
                  ClientCredentials.world_init))).
Proof.
  destruct (invariant_kept_by_replies_with_expiry (rt := plainCoercions))
    as (Hinit & Hinit' & _ & Hnet).
  assert (Hissuer : forall req, carriesExpiry (rt := plainCoercions) (issuer req) = true)
    by (intros req; reflexivity).
  destruct (Hnet issuer Hissuer) as (_ & Hcallback & Hclient).
  split.
  - apply Hcallback. exact Hinit.
  - apply Hclient. exact Hinit'.
Defined.

Lemma health_and_status_in_range_witness :
  let w := authCodeWorld (JStr "tok-1") (JStr "ref-1") 1000 in
  AuthCode.healthAuthenticated w = true
  /\ prop (json (AuthCode.authStatus (rt := plainCoercions) (dt := plainDates) 5000 w))
          "authenticated" = JBool false.
Proof.
  intros w.
  destruct (health_and_status_in_range (rt := plainCoercions) (dt := plainDates)
              w 5000 1000 eq_refl)
    as (_ & _ & _ & Hexpired); [discriminate|].
  apply Hexpired; [reflexivity|discriminate].
Defined.

(** C4 as stated fails on [originalTotalElements]: the route copies the
    [totalElements] field of the upstream payload, which is absent in
    the payload of the example and counts all pages otherwise; it is not
    the number of elements of [content].  And a record whose subject is
    a number makes the callback throw, so the route answers 500. *)
Lemma C4_counterexample :
  let three := JArr [Activities.activity "CLEANING" "x";
                     Activities.activity "CLEANING" "Inventory Check - Departure";
                     Activities.activity "OTHER" "x"] in
  prop (json (Activities.listActivities (JObj [("content", three)])))
       "originalTotalElements" = JUndefined
  /\ prop (json (Activities.listActivities
                   (JObj [("content", three); ("totalElements", JNum (Int 250))])))
          "originalTotalElements" = JNum (Int 250)
  /\ prop (json (Activities.listActivities
                   (JObj [("content", three); ("totalElements", JNum (Int 250))])))
          "originalTotalElements" <> JNum (Int 3)
  /\ status (Activities.listActivities
               (JObj [("content",
                       JArr [JObj [("activityType", JStr "CLEANING");
                                   ("subject", JNum (Int 5))]])]))
     = 500%Z.
Proof. repeat split. discriminate. Qed.

Lemma C4_cleaning_filter_witness :
  let content := [Activities.activity "CLEANING" "x";
                  Activities.activity "CLEANING" "Inventory Check - Departure";
                  Activities.activity "OTHER" "x"] in
  let fields := [("content", JArr content); ("totalElements", JNum (Int 250))] in
  let kept := List.filter Activities.cleaningRule content in
  let out := json (Activities.listActivities (JObj fields)) in
  status (Activities.listActivities (JObj fields)) = 200%Z
  /\ prop out "content" = JArr kept
  /\ prop out "numberOfElements" = JNum (Int (Z.of_nat (length kept)))
  /\ prop out "totalElements" = JNum (Int (Z.of_nat (length kept)))
  /\ prop out "filtered" = JBool true
  /\ prop out "originalTotalElements" = objGet "totalElements" fields
  /\ prop out "filterCriteria" = JStr Activities.filterCriteria
  /\ forall k : string,
      ~ In k ["content"; "numberOfElements"; "totalElements"; "filtered";
              "originalTotalElements"; "filterCriteria"] ->
      prop out k = objGet k fields.
Proof.
  intros content fields kept out.
  apply (proj1 C4_cleaning_filter fields content); reflexivity.
Defined.

End ConcreteRuns.

(** * Further properties of the servers *)

(** ** Token lifecycle *)

Section TokenLifecycle.
Context `{rt : Coercions}.

(** A call to the token endpoint that fails (the exchange, the refresh,
    the client-credentials acquisition) leaves the stored tokens as
    they were when the awaited call threw or brought no data, and the
    refresh also when no refresh token is cached; the call itself is on
    record.  The one other failure is the throw of the expiry line on
    an [expires_in] that cannot be converted: then the tokens of the
    reply are already written, and only the expiry is as it was. *)
Theorem failed_token_call_keeps_storage (code : JsValue) (net : Endpoint) :
  (forall (w : AuthCode.World) (e : JsError),
      let reply := net (AuthorizationCodeGrant code) in
      let after := snd (AuthCode.exchangeCodeForTokens code net w) in
      fst (AuthCode.exchangeCodeForTokens code net w) = Throw e ->
      AuthCode.posts after = (AuthCode.posts w ++ [AuthorizationCodeGrant code])%list
      /\ (withoutData reply = true -> AuthCode.tokenStorage after = AuthCode.tokenStorage w)
      /\ (withoutData reply = false ->
          exists data : JsValue,
            outcome reply = Ok data
            /\ convertible (prop data "expires_in") = false
            /\ AuthCode.tokenStorage after
               = {| AuthCode.accessToken := prop data "access_token";
                    AuthCode.refreshToken := prop data "refresh_token";
                    AuthCode.expiresAt := AuthCode.expiresAt (AuthCode.tokenStorage w) |}))
  /\ (forall (w : AuthCode.World) (e : JsError),
      let held := AuthCode.refreshToken (AuthCode.tokenStorage w) in
      let reply := net (RefreshTokenGrant held) in
      let after := snd (AuthCode.refreshAccessToken net w) in
      fst (AuthCode.refreshAccessToken net w) = Throw e ->
      (truthy held = false \/ withoutData reply = true ->
       AuthCode.tokenStorage after = AuthCode.tokenStorage w)
      /\ (truthy held = true -> withoutData reply = false ->
          exists data : JsValue,
            outcome reply = Ok data
            /\ convertible (prop data "expires_in") = false
            /\ AuthCode.tokenStorage after
               = {| AuthCode.accessToken := prop data "access_token";
                    AuthCode.refreshToken :=
                      if truthy (prop data "refresh_token")
                      then prop data "refresh_token" else held;
                    AuthCode.expiresAt := AuthCode.expiresAt (AuthCode.tokenStorage w) |}))
  /\ (forall (w : ClientCredentials.World) (e : JsError),
      let reply := net ClientCredentialsGrant in
      let after := snd (ClientCredentials.getAccessToken net w) in
      fst (ClientCredentials.getAccessToken net w) = Throw e ->
      (withoutData reply = true ->
       ClientCredentials.tokenStorage after = ClientCredentials.tokenStorage w)
      /\ (withoutData reply = false ->
          exists data : JsValue,
            outcome reply = Ok data
            /\ convertible (prop data "expires_in") = false
            /\ ClientCredentials.tokenStorage after
               = {| ClientCredentials.accessToken := prop data "access_token";
                    ClientCredentials.expiresAt :=
                      ClientCredentials.expiresAt (ClientCredentials.tokenStorage w) |})).
Proof.
  split; [|split].
  - intros w e reply after. subst reply after.
    unfold AuthCode.exchangeCodeForTokens, AuthCode.storeExchanged, withoutData, expiry.
    destruct (outcome (net _)) as [data|err].
    + destruct (nullish data).
      * intros _. split; [reflexivity|]. split; [reflexivity|discriminate].
      * destruct (convertible (prop data "expires_in")) eqn:Hconv; [discriminate|].
        intros _. split; [reflexivity|]. split; [discriminate|].
        intros _. exists data. repeat split. exact Hconv.
    + intros _. split; [reflexivity|]. split; [reflexivity|discriminate].
  - intros w e held reply after. subst held reply after.
    unfold AuthCode.refreshAccessToken, AuthCode.storeRefreshed, withoutData, expiry.
    destruct (truthy (AuthCode.refreshToken (AuthCode.tokenStorage w))) eqn:Hrt; cbn [negb].
    + destruct (outcome (net _)) as [data|err].
      * destruct (nullish data).
        { intros _. split; [reflexivity|discriminate]. }
        destruct (convertible (prop data "expires_in")) eqn:Hconv; [discriminate|].
        intros _. split; [intros [Habs|Habs]; discriminate Habs|].
        intros _ _. exists data. repeat split. exact Hconv.
      * intros _. split; [reflexivity|discriminate].
    + intros _. split; [reflexivity|discriminate].
  - intros w e reply after. subst reply after.
    unfold ClientCredentials.getAccessToken, withoutData, expiry.
    destruct (outcome (net _)) as [data|err].
    + destruct (nullish data).
      * intros _. split; [reflexivity|discriminate].
      * destruct (convertible (prop data "expires_in")) eqn:Hconv; [discriminate|].
        intros _. split; [discriminate|].
        intros _. exists data. repeat split. exact Hconv.
    + intros _. split; [reflexivity|discriminate].
Qed.

(** When the client-credentials server cannot get a token, the error is
    'Authentication failed' and the storage is not cleared (the
    authorization-code server clears it): when the awaited call threw
    or brought no data, the stale token stays and /health goes on
    reporting what it reported; when the expiry line threw, the access
    token of the reply is in the storage with the expiry of the old
    one, and /health reports whether that token is set. *)
Theorem client_failure_keeps_stale_token (now : Z) (net : Endpoint)
    (w : ClientCredentials.World) (e : JsError) :
  let reply := net ClientCredentialsGrant in
  let after := snd (ClientCredentials.getValidAccessToken now net w) in
  fst (ClientCredentials.getValidAccessToken now net w) = Throw e ->
  e = ClientCredentials.authenticationFailed
  /\ ClientCredentials.expiresAt (ClientCredentials.tokenStorage after)
     = ClientCredentials.expiresAt (ClientCredentials.tokenStorage w)
  /\ (withoutData reply = true ->
      ClientCredentials.tokenStorage after = ClientCredentials.tokenStorage w
      /\ ClientCredentials.healthAuthenticated after
         = ClientCredentials.healthAuthenticated w)
  /\ (withoutData reply = false ->
      exists data : JsValue,
        outcome reply = Ok data
        /\ convertible (prop data "expires_in") = false
        /\ ClientCredentials.accessToken (ClientCredentials.tokenStorage after)
           = prop data "access_token"
        /\ ClientCredentials.healthAuthenticated after = truthy (prop data "access_token")).
Proof.
  intros reply after. subst reply after.
  unfold ClientCredentials.getValidAccessToken, ClientCredentials.healthAuthenticated.
  destruct (ClientCredentials.reusable now _); [discriminate|].
  unfold ClientCredentials.getAccessToken, withoutData, expiry.
  destruct (outcome (net _)) as [data|err].
  - destruct (nullish data).
    + intros [= <-]. repeat split; discriminate.
    + destruct (convertible (prop data "expires_in")) eqn:Hconv; [discriminate|].
      intros [= <-]. split; [reflexivity|]. split; [reflexivity|].
      split; [discriminate|]. intros _. exists data. repeat split. exact Hconv.
  - intros [= <-]. repeat split; discriminate.
Qed.

(** A successful refresh stores the new access token, takes the new
    refresh token when the reply has one and keeps the old one when it
    has none: a refresh token is still cached afterwards. *)
Theorem refresh_rotates_tokens (net : Endpoint) (w : AuthCode.World) (data : JsValue) :
  truthy (AuthCode.refreshToken (AuthCode.tokenStorage w)) = true ->
  outcome (net (RefreshTokenGrant (AuthCode.refreshToken (AuthCode.tokenStorage w))))
  = Ok data ->
  nullish data = false ->
  let after := AuthCode.tokenStorage (snd (AuthCode.refreshAccessToken net w)) in
  AuthCode.accessToken after = prop data "access_token"
  /\ (truthy (prop data "refresh_token") = true ->
      AuthCode.refreshToken after = prop data "refresh_token")
  /\ (truthy (prop data "refresh_token") = false ->
      AuthCode.refreshToken after = AuthCode.refreshToken (AuthCode.tokenStorage w))
  /\ truthy (AuthCode.refreshToken after) = true.
Proof.
  intros Hrt Hout Hdata after. subst after.
  unfold AuthCode.refreshAccessToken, AuthCode.storeRefreshed. rewrite Hrt. cbn [negb].
  rewrite Hout, Hdata.
  destruct (expiry _ _) as [expires|err];
    cbn [snd AuthCode.stored AuthCode.posted AuthCode.tokenStorage
         AuthCode.accessToken AuthCode.refreshToken];
    destruct (truthy (prop data "refresh_token")) eqn:Hnew; repeat split;
    try discriminate; auto.
Qed.

(** [getValidAccessToken] never calls the token endpoint more than
    once, and never forgets a call already on record. *)
Theorem at_most_one_token_call (now : Z) (net : Endpoint) :
  (forall w : AuthCode.World,
      exists made : list TokenRequest,
        AuthCode.posts (snd (AuthCode.getValidAccessToken now net w))
        = (AuthCode.posts w ++ made)%list
        /\ (length made <= 1)%nat)
  /\ (forall w : ClientCredentials.World,
      exists made : list TokenRequest,
        ClientCredentials.posts (snd (ClientCredentials.getValidAccessToken now net w))
        = (ClientCredentials.posts w ++ made)%list
        /\ (length made <= 1)%nat).
Proof.
  split; intros w.
  - unfold AuthCode.getValidAccessToken.
    destruct (AuthCode.reusable now _).
    { exists []. split; [now rewrite app_nil_r|simpl; lia]. }
    destruct (truthy (AuthCode.refreshToken _)) eqn:Hrt.
    + pose proof (AuthCode_refresh_posts net w Hrt) as Hp.
      destruct (AuthCode.refreshAccessToken net w) as [[data|err] w'];
        eexists; (split; [exact Hp|simpl; lia]).
    + exists []. split; [now rewrite app_nil_r|simpl; lia].
  - unfold ClientCredentials.getValidAccessToken.
    destruct (ClientCredentials.reusable now _).
    { exists []. split; [now rewrite app_nil_r|simpl; lia]. }
    pose proof (ClientCredentials_acquire_posts net w) as Hp.
    destruct (ClientCredentials.getAccessToken net w) as [[tok|err] w'];
      eexists; (split; [exact Hp|simpl; lia]).
Qed.

(** Authorization-code server: once a refresh has brought a token that
    is set and expires late enough, [getValidAccessToken] returns that
    token, and the next request within its life gets it from the
    storage without any call. *)
Theorem refresh_then_reuse (now now' n : Z) (net net' : Endpoint)
    (w : AuthCode.World) (data : JsValue) :
  let grant := RefreshTokenGrant (AuthCode.refreshToken (AuthCode.tokenStorage w)) in
  AuthCode.reusable now (AuthCode.tokenStorage w) = false ->
  truthy (AuthCode.refreshToken (AuthCode.tokenStorage w)) = true ->
  outcome (net grant) = Ok data ->
  nullish data = false ->
  truthy (prop data "access_token") = true ->
  ToNumber (prop data "expires_in") = Int n ->
  (now' + 300000 < resumedAt (net grant) + n * 1000)%Z ->
  let w1 := snd (AuthCode.getValidAccessToken now net w) in
  fst (AuthCode.getValidAccessToken now net w) = Ok (prop data "access_token")
  /\ AuthCode.getValidAccessToken now' net' w1 = (Ok (prop data "access_token"), w1).
Proof.
  intros grant Hno Hrt Hout Hdata Htok Hn Hlt w1. subst w1 grant.
  destruct (AuthCode.getValidAccessToken now net w) as [r w1] eqn:Hgo.
  unfold AuthCode.getValidAccessToken in Hgo. rewrite Hno, Hrt in Hgo.
  unfold AuthCode.refreshAccessToken, AuthCode.storeRefreshed in Hgo. rewrite Hrt in Hgo.
  cbn [negb] in Hgo. rewrite Hout, Hdata, (expiry_Int _ n _ Hn) in Hgo.
  injection Hgo as <- <-. cbn [fst snd].
  split; [reflexivity|].
  unfold AuthCode.getValidAccessToken, AuthCode.reusable.
  cbn [AuthCode.stored AuthCode.posted AuthCode.tokenStorage AuthCode.accessToken
       AuthCode.expiresAt].
  rewrite Htok. cbn [ToNumber gt andb].
  apply Z.ltb_lt in Hlt. now rewrite Hlt.
Qed.

(** Client-credentials server: the same for an acquisition. *)
Theorem acquire_then_reuse (now now' n : Z) (net net' : Endpoint)
    (w : ClientCredentials.World) (data : JsValue) :
  ClientCredentials.reusable now (ClientCredentials.tokenStorage w) = false ->
  outcome (net ClientCredentialsGrant) = Ok data ->
  nullish data = false ->
  truthy (prop data "access_token") = true ->
  ToNumber (prop data "expires_in") = Int n ->
  (now' + 300000 < resumedAt (net ClientCredentialsGrant) + n * 1000)%Z ->
  let w1 := snd (ClientCredentials.getValidAccessToken now net w) in
  fst (ClientCredentials.getValidAccessToken now net w) = Ok (prop data "access_token")
  /\ ClientCredentials.getValidAccessToken now' net' w1
     = (Ok (prop data "access_token"), w1).
Proof.
  intros Hno Hout Hdata Htok Hn Hlt w1. subst w1.
  destruct (ClientCredentials.getValidAccessToken now net w) as [r w1] eqn:Hgo.
  unfold ClientCredentials.getValidAccessToken in Hgo. rewrite Hno in Hgo.
  unfold ClientCredentials.getAccessToken in Hgo.
  rewrite Hout, Hdata, (expiry_Int _ n _ Hn) in Hgo.
  injection Hgo as <- <-. cbn [fst snd].
  split; [reflexivity|].
  unfold ClientCredentials.getValidAccessToken, ClientCredentials.reusable.
  cbn [ClientCredentials.stored ClientCredentials.posted ClientCredentials.tokenStorage
       ClientCredentials.accessToken ClientCredentials.expiresAt].
  rewrite Htok. cbn [ToNumber gt andb].
  apply Z.ltb_lt in Hlt. now rewrite Hlt.
Qed.

(** Client-credentials server: a token issued for 300 seconds or less
    is never served from the storage once the clock has reached the
    time it was stored at, and a token issued without [expires_in] is
    never served from the storage at all: the next request calls the
    token endpoint again. *)
Theorem short_lived_token_not_cached (now now' : Z) (net net' : Endpoint)
    (w : ClientCredentials.World) (data : JsValue) :
  ClientCredentials.reusable now (ClientCredentials.tokenStorage w) = false ->
  outcome (net ClientCredentialsGrant) = Ok data ->
  nullish data = false ->
  let w1 := snd (ClientCredentials.getValidAccessToken now net w) in
  ((exists n : Z, ToNumber (prop data "expires_in") = Int n /\ (n <= 300)%Z
                  /\ (resumedAt (net ClientCredentialsGrant) <= now')%Z)
   \/ prop data "expires_in" = JUndefined) ->
  ClientCredentials.posts (snd (ClientCredentials.getValidAccessToken now' net' w1))
  = (ClientCredentials.posts w1 ++ [ClientCredentialsGrant])%list.
Proof.
  intros Hno Hout Hdata w1 Hshort. subst w1.
  destruct (ClientCredentials.getValidAccessToken now net w) as [r w1] eqn:Hgo.
  unfold ClientCredentials.getValidAccessToken in Hgo. rewrite Hno in Hgo.
  unfold ClientCredentials.getAccessToken in Hgo. rewrite Hout, Hdata in Hgo.
  assert (Hexp : exists t : Number,
             expiry (resumedAt (net ClientCredentialsGrant)) (prop data "expires_in")
             = Ok (JNum t)
             /\ gt t (Int (now' + 300000)) = false).
  { destruct Hshort as [(n & Hn & Hle & Hclock) | Hnone].
    - eexists. split; [exact (expiry_Int _ n _ Hn)|]. cbn [gt]. apply Z.ltb_ge. lia.
    - rewrite Hnone. exists NaN. split; reflexivity. }
  destruct Hexp as (t & Hexp & Hgt). rewrite Hexp in Hgo.
  injection Hgo as <- <-. cbn [snd].
  match goal with |- ClientCredentials.posts (snd (_ _ _ ?v)) = _ => set (w1 := v) end.
  assert (Hstale : ClientCredentials.reusable now' (ClientCredentials.tokenStorage w1) = false).
  { unfold ClientCredentials.reusable, w1.
    cbn [ClientCredentials.stored ClientCredentials.posted ClientCredentials.tokenStorage
         ClientCredentials.accessToken ClientCredentials.expiresAt].
    apply andb_false_iff. right. exact Hgt. }
  unfold ClientCredentials.getValidAccessToken. rewrite Hstale.
  pose proof (ClientCredentials_acquire_posts net' w1) as Hp.
  destruct (ClientCredentials.getAccessToken net' w1) as [[tok|err] w2]; exact Hp.
Qed.

Lemma getValidAccessToken_throws (now : Z) (net : Endpoint) (w : AuthCode.World)
    (e : JsError) :
  fst (AuthCode.getValidAccessToken now net w) = Throw e ->
  e = AuthCode.authenticationRequired.
Proof.
  unfold AuthCode.getValidAccessToken.
  destruct (AuthCode.reusable now _); [discriminate|].
  destruct (truthy (AuthCode.refreshToken _)).
  - destruct (AuthCode.refreshAccessToken net w) as [[data|err] w'];
      [discriminate|]. now intros [= <-].
  - now intros [= <-].
Qed.

(** The token handed out is the access token in the storage after the
    call. *)
Lemma getValidAccessToken_returns_stored (now : Z) (net : Endpoint)
    (w : AuthCode.World) (token : JsValue) :
  fst (AuthCode.getValidAccessToken now net w) = Ok token ->
  token = AuthCode.accessToken
            (AuthCode.tokenStorage (snd (AuthCode.getValidAccessToken now net w))).
Proof.
  unfold AuthCode.getValidAccessToken.
  destruct (AuthCode.reusable now _); [now intros [= <-]|].
  destruct (truthy (AuthCode.refreshToken _)); [|discriminate].
  destruct (AuthCode.refreshAccessToken net w) as [[data|err] w'];
    [now intros [= <-]|discriminate].
Qed.

(** Whatever makes [getValidAccessToken] throw, the [catch] block of the
    proxy routes answers it with 401 and [requiresAuth: true]. *)
Theorem token_failure_is_401 (now : Z) (net : Endpoint) :
  (forall (w : AuthCode.World) (e : JsError),
      fst (AuthCode.getValidAccessToken now net w) = Throw e ->
      errorResponse "Authentication required" e
      = {| status := 401;
           json := JObj [("error", JStr "Authentication required");
                         ("requiresAuth", JBool true)] |})
  /\ (forall (w : ClientCredentials.World) (e : JsError),
      fst (ClientCredentials.getValidAccessToken now net w) = Throw e ->
      errorResponse "Authentication failed" e
      = {| status := 401;
           json := JObj [("error", JStr "Authentication failed");
                         ("requiresAuth", JBool true)] |}).
Proof.
  split; intros w e.
  - intros Hthrow. now rewrite (getValidAccessToken_throws now net w e Hthrow).
  - unfold ClientCredentials.getValidAccessToken.
    destruct (ClientCredentials.reusable now _); [discriminate|].
    destruct (ClientCredentials.getAccessToken net w) as [[tok|err] w'];
      [discriminate|]. now intros [= <-].
Qed.

(** GET /auth/callback: with an [error] parameter, or without a [code],
    nothing is sent to the token endpoint and the world stays as it is;
    the stored tokens change only if the exchange of the code returned
    a reply. *)
Theorem callback_guards (error code : JsValue) (net : Endpoint) (w : AuthCode.World) :
  (truthy error = true \/ truthy code = false ->
     AuthCode.authCallback error code net w = w)
  /\ (AuthCode.tokenStorage (AuthCode.authCallback error code net w)
      <> AuthCode.tokenStorage w ->
      truthy error = false /\ truthy code = true
      /\ exists data : JsValue,
           outcome (net (AuthorizationCodeGrant code)) = Ok data
           /\ nullish data = false).
Proof.
  unfold AuthCode.authCallback. split.
  - intros [-> | ->]; [reflexivity|]. now destruct (truthy error).
  - destruct (truthy error); [intros Hne; now contradiction Hne|].
    destruct (truthy code); [|intros Hne; now contradiction Hne].
    cbn [negb]. unfold AuthCode.exchangeCodeForTokens, AuthCode.storeExchanged.
    destruct (outcome (net _)) as [data|err]; [|intros Hne; now contradiction Hne].
    destruct (nullish data) eqn:Hdata; [intros Hne; now contradiction Hne|].
    intros _. repeat split. now exists data.
Qed.

End TokenLifecycle.

(** ** Error responses *)

Section ErrorResponses.

(** The pattern [401] of the [catch] block, as a test on the status. *)
Lemma match_401 {A : Type} (st : Z) (x y : A) :
  match st with 401%Z => x | _ => y end = if (st =? 401)%Z then x else y.
Proof.
  destruct (Z.eqb_spec st 401) as [->|Hne]; [reflexivity|].
  destruct st as [|p|p]; try reflexivity.
  repeat (destruct p as [p|p|]; try reflexivity). now contradiction Hne.
Qed.

Lemma errorResponse_cases (authMessage : string) (e : JsError) :
  errorResponse authMessage e
  = match response e with
    | Some (st, body) =>
        if (st =? 401)%Z || String.eqb (message e) authMessage
        then requiresAuth authMessage
        else {| status := if (st =? 0)%Z then 500%Z else st;
                json := JObj [("error",
                  if truthy (if nullish body then JUndefined else prop body "message")
                  then (if nullish body then JUndefined else prop body "message")
                  else if negb (String.eqb (message e) EmptyString) then JStr (message e)
                  else JStr "Internal server error")] |}
    | None =>
        if String.eqb (message e) authMessage then requiresAuth authMessage
        else {| status := 500%Z;
                json := JObj [("error",
                  if negb (String.eqb (message e) EmptyString) then JStr (message e)
                  else JStr "Internal server error")] |}
    end.
Proof.
  unfold errorResponse. destruct (response e) as [[st body]|]; [|reflexivity].
  rewrite match_401. destruct (st =? 401)%Z; reflexivity.
Qed.

(** The [catch] block never answers with status 0 and never with an
    empty [error]; an upstream 401 becomes 401 with [requiresAuth]
    whatever its message, and a failure without upstream response
    becomes 500 unless its message is the authentication message. *)
Theorem errorResponse_shape (authMessage : string) (e : JsError) :
  authMessage <> EmptyString ->
  status (errorResponse authMessage e) <> 0%Z
  /\ truthy (prop (json (errorResponse authMessage e)) "error") = true
  /\ (forall body : JsValue,
       response e = Some (401%Z, body) ->
       errorResponse authMessage e = requiresAuth authMessage)
  /\ (response e = None -> message e <> authMessage ->
      status (errorResponse authMessage e) = 500%Z).
Proof.
  intros Hm. apply String.eqb_neq in Hm.
  assert (Hauth : truthy (prop (json (requiresAuth authMessage)) "error") = true).
  { cbn. now rewrite Hm. }
  rewrite errorResponse_cases.
  split; [|split; [|split]].
  - destruct (response e) as [[st body]|].
    + destruct ((st =? 401)%Z || String.eqb (message e) authMessage); [discriminate|].
      cbn [status]. destruct (Z.eqb_spec st 0); [discriminate|assumption].
    + destruct (String.eqb (message e) authMessage); discriminate.
  - assert (Hmsg : truthy (if negb (String.eqb (message e) EmptyString)
                           then JStr (message e) else JStr "Internal server error") = true).
    { destruct (String.eqb (message e) EmptyString) eqn:Hempty; cbn; [reflexivity|].
      now rewrite Hempty. }
    destruct (response e) as [[st body]|].
    + destruct ((st =? 401)%Z || String.eqb (message e) authMessage); [exact Hauth|].
      cbn [json prop objGet]. rewrite String.eqb_refl.
      destruct (truthy (if nullish body then JUndefined else prop body "message")) eqn:Hu;
        [exact Hu|exact Hmsg].
    + destruct (String.eqb (message e) authMessage); [exact Hauth|].
      cbn [json prop objGet]. rewrite String.eqb_refl. exact Hmsg.
  - intros body ->. reflexivity.
  - intros -> Hne. apply String.eqb_neq in Hne. now rewrite Hne.
Qed.

End ErrorResponses.

(** ** Deposit store, further *)

Section DepositStoreFurther.
Import Deposits.

(** A later update under the same id replaces the record as a whole:
    the flags and the stamp read back are those of the last update. *)
Theorem last_write_wins (a : string) (body1 body2 : list (string * JsValue))
    (now1 now2 : string) (r1 t1 r2 t2 : bool) (d : DepositsData) :
  a <> EmptyString ->
  objGet "depositReturnComplete" body1 = JBool r1 ->
  objGet "depositTransferredToNewStudio" body1 = JBool t1 ->
  objGet "depositReturnComplete" body2 = JBool r2 ->
  objGet "depositTransferredToNewStudio" body2 = JBool t2 ->
  getStatus (Some a)
    (snd (setStatus (Some a) body2 now2 (snd (setStatus (Some a) body1 now1 d))))
  = {| status := 200;
       json := JObj [("depositReturnComplete", JBool r2);
                     ("depositTransferredToNewStudio", JBool t2);
                     ("updatedAt", JStr now2)] |}.
Proof.
  intros Ha H1 H2 H3 H4.
  rewrite (setStatus_booleans a body1 now1 d r1 t1) by assumption. cbn [snd].
  rewrite (setStatus_booleans a body2 now2 _ r2 t2) by assumption. cbn [snd].
  now rewrite getStatus_stored.
Qed.

(** The record a successful PUT returns under [data] is the body a GET
    for the same id answers right after it. *)
Theorem put_answer_is_next_get (a : string) (body : list (string * JsValue))
    (now : string) (d : DepositsData) :
  status (fst (setStatus (Some a) body now d)) = 200%Z ->
  getStatus (Some a) (snd (setStatus (Some a) body now d))
  = {| status := 200;
       json := prop (json (fst (setStatus (Some a) body now d))) "data" |}.
Proof.
  intros Hok.
  assert (Hcases : a <> EmptyString
                   /\ exists r t : bool,
                       objGet "depositReturnComplete" body = JBool r
                       /\ objGet "depositTransferredToNewStudio" body = JBool t).
  { revert Hok. unfold setStatus, missing.
    destruct (String.eqb a EmptyString) eqn:Ha; [discriminate|].
    destruct (objGet "depositReturnComplete" body); try discriminate.
    destruct (objGet "depositTransferredToNewStudio" body); try discriminate.
    intros _. split; [now apply String.eqb_neq|eauto]. }
  destruct Hcases as (Ha & r & t & Hr & Ht).
  rewrite (setStatus_booleans a body now d r t) by assumption.
  cbn [fst snd]. now rewrite getStatus_stored.
Qed.


(** For an id that cannot be inherited, GET answers 200 with two
    boolean flags whatever the store holds. *)
Theorem get_answers_two_booleans (a : string) (d : DepositsData) :
  a <> EmptyString ->
  existsb (String.eqb a) inheritable = false ->
  status (getStatus (Some a) d) = 200%Z
  /\ exists r t : bool,
      prop (json (getStatus (Some a) d)) "depositReturnComplete" = JBool r
      /\ prop (json (getStatus (Some a) d)) "depositTransferredToNewStudio" = JBool t.
Proof.
  intros Ha Hin. destruct (own d !! a) as [rec|] eqn:Hown.
  - unfold getStatus, getField. apply String.eqb_neq in Ha. rewrite Ha.
    unfold inheritable in Hin. cbn [existsb] in Hin.
    apply orb_false_iff in Hin as [-> _]. rewrite Hown. cbn.
    split; [reflexivity|]. eauto.
  - rewrite (getStatus_default a d Ha Hin Hown). cbn.
    split; [reflexivity|]. eauto.
Qed.

End DepositStoreFurther.

(** ** Activity filters, further *)

Section ActivityFiltersFurther.

Lemma strictEqStr_eq (v : JsValue) (s : string) :
  strictEqStr v s = true <-> v = JStr s.
Proof.
  destruct v; simpl; try (split; [discriminate|congruence]).
  rewrite String.eqb_eq. split; congruence.
Qed.

(** Whatever the elements of [content] are, when the CLEANING filter
    answers, what it keeps is a sublist of [content] (nothing added,
    nothing reordered), the callback holds of every element kept, and
    filtering the result again keeps all of it. *)
Theorem filteredContent_sound (content kept : list JsValue) :
  Activities.filteredContent content = Ok kept ->
  sublist kept content
  /\ Forall (fun a => Activities.keep a = Ok true) kept
  /\ Activities.filteredContent kept = Ok kept.
Proof.
  revert kept. induction content as [|a rest IH]; intros kept; simpl.
  - intros [= <-]. repeat split; constructor.
  - destruct (Activities.keep a) as [k|e] eqn:Hk; simpl; [|discriminate].
    destruct (Activities.filteredContent rest) as [kept'|e]; simpl; [|discriminate].
    destruct (IH kept' eq_refl) as (Hsub & Hall & Hagain).
    intros [= <-]. destruct k.
    + repeat split.
      * now constructor.
      * now constructor.
      * simpl. now rewrite Hk, Hagain.
    + repeat split; auto. now constructor.
Qed.

Lemma cleaning_throws (content : list JsValue) (a : JsValue) (e : JsError) :
  In a content -> Activities.keep a = Throw e ->
  exists e', Activities.filteredContent content = Throw e'
             /\ (e' = Activities.cannotRead \/ e' = Activities.notAFunction).
Proof.
  assert (Hkinds : forall b e0, Activities.keep b = Throw e0 ->
                     e0 = Activities.cannotRead \/ e0 = Activities.notAFunction).
  { intros b e0. unfold Activities.keep, Activities.member.
    destruct (nullish b); simpl; [intros [= <-]; now left|].
    destruct (strictEqStr _ _); simpl; [|discriminate].
    destruct (negb (truthy _)); [discriminate|].
    unfold Activities.callIncludes.
    destruct (prop b "subject"); simpl; try discriminate; intros [= <-]; now right. }
  induction content as [|b rest IH]; simpl; [contradiction|].
  intros Hin Hthrow. destruct (Activities.keep b) as [k|e0] eqn:Hb; simpl.
  - destruct Hin as [->|Hin]; [congruence|].
    destruct (IH Hin Hthrow) as (e' & -> & Hkind). simpl. eauto.
  - exists e0. split; [reflexivity|]. eapply Hkinds; eauto.
Qed.

Lemma inventory_throws (content : list JsValue) (a : JsValue) (e : JsError) :
  In a content -> Inventory.keep a = Throw e ->
  exists e', Inventory.filteredContent content = Throw e'
             /\ ((exists b, e' = Inventory.cannotReadSubject b)
                 \/ e' = Activities.notAFunction).
Proof.
  assert (Hkinds : forall b e0, Inventory.keep b = Throw e0 ->
                     (exists c, e0 = Inventory.cannotReadSubject c)
                     \/ e0 = Activities.notAFunction).
  { intros b e0. unfold Inventory.keep.
    destruct (nullish b); simpl; [intros [= <-]; left; eauto|].
    destruct (truthy _); [|discriminate].
    unfold Activities.callIncludes.
    destruct (prop b "subject"); simpl; try discriminate; intros [= <-]; now right. }
  induction content as [|b rest IH]; simpl; [contradiction|].
  intros Hin Hthrow. destruct (Inventory.keep b) as [k|e0] eqn:Hb; simpl.
  - destruct Hin as [->|Hin]; [congruence|].
    destruct (IH Hin Hthrow) as (e' & -> & Hkind). simpl. eauto.
  - exists e0. split; [reflexivity|]. eapply Hkinds; eauto.
Qed.

(** One [null] among the elements of [content] fails the whole page:
    both filters answer 500, however many proper records the page has. *)
Theorem null_element_fails_page (fields : list (string * JsValue))
    (content : list JsValue) (a : JsValue) :
  objGet "content" fields = JArr content ->
  In a content -> nullish a = true ->
  status (Activities.listActivities (JObj fields)) = 500%Z
  /\ status (Inventory.listActivities (JObj fields)) = 500%Z.
Proof.
  intros Hc Hin Hnull. split.
  - assert (Hthrow : Activities.keep a = Throw Activities.cannotRead).
    { unfold Activities.keep, Activities.member. now rewrite Hnull. }
    destruct (cleaning_throws content a _ Hin Hthrow) as (e' & He' & Hkind).
    unfold Activities.listActivities, Activities.filterPage. simpl.
    rewrite Hc. simpl. rewrite He'. simpl.
    destruct Hkind as [-> | ->]; reflexivity.
  - assert (Hthrow : Inventory.keep a = Throw (Inventory.cannotReadSubject a)).
    { unfold Inventory.keep. now rewrite Hnull. }
    unfold Inventory.listActivities, Inventory.filterPage. simpl.
    rewrite Hc. simpl.
    destruct (inventory_throws content a _ Hin Hthrow) as (e' & -> & [(b & ->) | ->]).
    + simpl. now destruct b.
    + reflexivity.
Qed.

(** On activity records the Inventory Check route keeps, in order,
    exactly the records whose subject contains "Inventory Check -
    Departure", and counts them in [numberOfElements] and
    [totalElements]. *)
Theorem inventory_filter_rule (fields : list (string * JsValue)) (content : list JsValue) :
  objGet "content" fields = JArr content ->
  forallb Activities.isActivity content = true ->
  let kept := List.filter
                (fun a => Activities.subjectContains a Activities.inventoryCheck)
                content in
  let out := json (Inventory.listActivities (JObj fields)) in
  status (Inventory.listActivities (JObj fields)) = 200%Z
  /\ prop out "content" = JArr kept
  /\ prop out "numberOfElements" = JNum (Int (Z.of_nat (length kept)))
  /\ prop out "totalElements" = JNum (Int (Z.of_nat (length kept)))
  /\ prop out "filtered" = JBool true
  /\ prop out "originalTotalElements" = objGet "totalElements" fields.
Proof.
  intros Hc Hall kept out.
  assert (Hrule : Inventory.filteredContent content = Ok kept).
  { subst kept. clear Hc out. induction content as [|a rest IH]; [reflexivity|].
    simpl in Hall. apply andb_true_iff in Hall as [Ha Hrest].
    simpl. rewrite (IH Hrest). clear IH.
    destruct a as [| | | | |items|fs|name]; try discriminate.
    unfold Inventory.keep, Activities.subjectContains, Activities.isActivity in *.
    simpl in *. destruct (objGet "subject" fs) as [| | | |s| | |]; try discriminate;
      try reflexivity.
    simpl. destruct (String.eqb s EmptyString) eqn:Es; simpl; [|reflexivity].
    apply String.eqb_eq in Es. subst s. reflexivity. }
  subst out. unfold Inventory.listActivities, Inventory.filterPage. simpl.
  rewrite Hc. simpl. rewrite Hrule. simpl.
  unfold Activities.count. repeat split; read_field.
Qed.

(** No value is kept by both filters, and an activity record of type
    CLEANING is kept by exactly one of them. *)
Theorem filters_disjoint (a : JsValue) :
  (forall c i : bool,
      Activities.keep a = Ok c -> Inventory.keep a = Ok i -> c && i = false)
  /\ (Activities.isActivity a = true ->
      prop a "activityType" = JStr "CLEANING" ->
      exists c : bool,
        Activities.keep a = Ok c /\ Inventory.keep a = Ok (negb c)).
Proof.
  split.
  - intros c i. unfold Activities.keep, Inventory.keep, Activities.member.
    destruct (nullish a); [discriminate|]. simpl.
    destruct (strictEqStr _ _); [|intros [= <-]; reflexivity].
    simpl. destruct (truthy (prop a "subject")); simpl.
    + destruct (Activities.callIncludes _ _) as [found|e]; simpl; [|discriminate].
      intros [= <-] [= <-]. now destruct found.
    + intros [= <-] [= <-]. reflexivity.
  - intros Hact Htype.
    destruct a as [| | | | |items|fs|name]; try discriminate.
    unfold Activities.keep, Inventory.keep, Activities.member, Activities.isActivity in *.
    simpl in *. rewrite Htype. simpl.
    destruct (objGet "subject" fs) as [| | | |s| | |]; try discriminate; simpl; eauto.
    destruct (String.eqb s EmptyString); simpl; eauto.
    eexists. split; [reflexivity|]. now rewrite negb_involutive.
Qed.

(** GET /api/v3/activities/:id of the client-credentials servers
    answers 200 with the upstream payload as it is, or 404 with a fixed
    body; a payload that is an object comes back only if its
    [activityType] is "CLEANING". *)
Theorem getActivity_only_cleaning (activity : JsValue) :
  (Inventory.getActivity activity = {| status := 200; json := activity |}
   /\ (truthy activity = true -> prop activity "activityType" = JStr "CLEANING"))
  \/ (Inventory.getActivity activity = Inventory.notCleaning activity
      /\ truthy activity = true
      /\ prop activity "activityType" <> JStr "CLEANING").
Proof.
  unfold Inventory.getActivity.
  destruct (truthy activity); simpl.
  - destruct (strictEqStr (prop activity "activityType") "CLEANING") eqn:Ht; simpl.
    + left. split; [reflexivity|]. intros _. now apply strictEqStr_eq.
    + right. repeat split. intros Heq. apply strictEqStr_eq in Heq. congruence.
  - left. split; [reflexivity|discriminate].
Qed.

(** The list and the route by id of the CLEANING server disagree on a
    CLEANING record whose subject contains "Inventory Check -
    Departure": the list drops it, the route by id serves it. *)
Theorem dropped_from_list_served_by_id (fields : list (string * JsValue)) (s : string) :
  objGet "activityType" fields = JStr "CLEANING" ->
  objGet "subject" fields = JStr s ->
  includes Activities.inventoryCheck s = true ->
  Activities.keep (JObj fields) = Ok false
  /\ Inventory.getActivity (JObj fields) = {| status := 200; json := JObj fields |}.
Proof.
  intros Htype Hsubject Hinc. split.
  - unfold Activities.keep, Activities.member. simpl. rewrite Htype, Hsubject. simpl.
    destruct (String.eqb s EmptyString) eqn:Es; simpl.
    + apply String.eqb_eq in Es. subst s. discriminate Hinc.
    + now rewrite Hinc.
  - unfold Inventory.getActivity. simpl. now rewrite Htype.
Qed.

End ActivityFiltersFurther.

(** ** Query parameters *)

Section QueryParameters.
Import Query.

Lemma get_generated (k : string) (f : string -> Value) (keys : list string) :
  isReserved k = false ->
  get k (map (fun k' => (k', f k')) (List.filter (fun k' => negb (isReserved k')) keys))
  = if existsb (String.eqb k) keys then Some (f k) else None.
Proof.
  intros Hk. induction keys as [|k' rest IH]; [reflexivity|].
  simpl. destruct (String.eqb k k') eqn:Hkk.
  - apply String.eqb_eq in Hkk. subst k'. rewrite Hk. simpl.
    now rewrite String.eqb_refl.
  - simpl. destruct (isReserved k'); simpl; [exact IH|].
    rewrite String.eqb_sym, Hkk. exact IH.
Qed.

Lemma get_keys (k : string) (q : Entries) :
  match get k q with
  | Some v => existsb (String.eqb k) (map fst q) = true /\ valueOf k q = v
  | None => existsb (String.eqb k) (map fst q) = false
  end.
Proof.
  unfold valueOf. induction q as [|[k' v'] rest IH]; [reflexivity|].
  simpl. rewrite (String.eqb_sym k k').
  destruct (String.eqb k' k); simpl; [auto|].
  destruct (get k rest); exact IH.
Qed.

Lemma get_unreserved (k : string) (q : Entries) :
  isReserved k = false -> get k (queryParams q) = get k q.
Proof.
  intros Hk. unfold queryParams.
  assert (Hfour : forall (a b c d : Value) rest,
             get k ([("dueDate", a); ("dueDateEnd", b); ("page", c); ("size", d)]
                    ++ rest)%list
             = get k rest).
  { intros a b c d rest. unfold isReserved, reserved in Hk. cbn [existsb] in Hk.
    repeat (apply orb_false_iff in Hk as [? Hk]).
    cbn [app get]. rewrite !(String.eqb_sym _ k).
    repeat match goal with H : String.eqb k _ = false |- _ => rewrite H; clear H end.
    reflexivity. }
  rewrite Hfour, get_generated by assumption.
  pose proof (get_keys k q) as Hq. destruct (get k q) as [v|].
  - destruct Hq as [-> ->]. reflexivity.
  - now rewrite Hq.
Qed.

Lemma render_throws : forall (v : Value) (e : JsError),
    render v = Throw e -> e = cannotConvert.
Proof.
  fix IH 1. intros [s|items|fields] e; cbn [render].
  - discriminate.
  - induction items as [|x rest IHrest]; [discriminate|].
    destruct rest as [|y rest']; [apply IH|].
    destruct (render x) as [s|ex] eqn:Hx; cbn [bind].
    + intros Hrest.
      match type of Hrest with
      | bind ?r _ = _ => destruct r as [t|et] eqn:Ht
      end; cbn [bind] in Hrest; [discriminate|].
      injection Hrest as <-. now apply IHrest.
    + intros [= <-]. now apply (IH x).
  - destruct (existsb _ fields); [now intros [= <-]|discriminate].
Qed.

Lemma renderAll_throws (es : Entries) (e : JsError) :
  renderAll es = Throw e -> e = cannotConvert.
Proof.
  induction es as [|[k v] rest IH]; cbn [renderAll]; [discriminate|].
  destruct (render v) as [s|ev] eqn:Hv; cbn [bind].
  - destruct (renderAll rest) as [sent|er]; cbn [bind]; [discriminate|].
    intros [= <-]. now apply IH.
  - intros [= <-]. now apply (render_throws v).
Qed.

(** What is sent under a name is the string made of the first value
    appended under it. *)
Lemma getText_renderAll (k : string) (es : Entries) :
  forall sent : list (string * string),
    renderAll es = Ok sent ->
    match get k es with
    | Some v => exists s : string, render v = Ok s /\ getText k sent = Some s
    | None => getText k sent = None
    end.
Proof.
  induction es as [|[k' v] rest IH]; intros sent; cbn [renderAll get].
  - now intros [= <-].
  - destruct (render v) as [s|ev] eqn:Hv; cbn [bind]; [|discriminate].
    destruct (renderAll rest) as [sent'|er]; cbn [bind]; [|discriminate].
    intros [= <-]. cbn [getText].
    destruct (String.eqb k' k); [now exists s|]. now apply IH.
Qed.

Lemma get_reserved (k d : string) (q : Entries) :
  In (k, d) [("dueDate", "2015-11-02"); ("dueDateEnd", "2035-11-02");
             ("page", "0"); ("size", "100")] ->
  get k (queryParams q) = Some (orDefault (get k q) d).
Proof.
  intros Hin. cbn [In] in Hin.
  repeat (destruct Hin as [[= <- <-]|Hin]); try contradiction; reflexivity.
Qed.

(** Every parameter of the request reaches the upstream query, as the
    string the search parameters make of its value: a value given once
    as it is, the values of a repeated parameter joined with commas.
    The four date and paging parameters get their defaults when absent
    or empty; every other parameter is passed whatever its value, and
    nothing is sent under a name the request does not have.  The
    parameters are not built only when a value cannot be converted to
    a string. *)
Theorem caller_parameters_reach_upstream (q : Entries) :
  (forall sent : list (string * string),
      searchParams q = Ok sent ->
      (forall (k : string) (v : Value),
          get k q = Some v -> given (Some v) = true ->
          exists s : string, render v = Ok s /\ getText k sent = Some s)
      /\ (forall k s : string,
            get k q = Some (Str s) -> s <> EmptyString -> getText k sent = Some s)
      /\ (forall (k : string) (items : list string),
            get k q = Some (Arr (map Str items)) ->
            getText k sent = Some (String.concat "," items))
      /\ (forall k : string,
            isReserved k = false ->
            match get k q with
            | Some v => exists s : string, render v = Ok s /\ getText k sent = Some s
            | None => getText k sent = None
            end)
      /\ (forall k d : string,
            In (k, d) [("dueDate", "2015-11-02"); ("dueDateEnd", "2035-11-02");
                       ("page", "0"); ("size", "100")] ->
            given (get k q) = false ->
            getText k sent = Some d))
  /\ (forall e : JsError, searchParams q = Throw e -> e = cannotConvert).
Proof.
  split; [|intros e; apply renderAll_throws].
  intros sent Hsent. unfold searchParams in Hsent.
  assert (Hgiven : forall (k : string) (v : Value),
             get k q = Some v -> given (Some v) = true ->
             exists s : string, render v = Ok s /\ getText k sent = Some s).
  { intros k v Hget Hv.
    pose proof (getText_renderAll k _ sent Hsent) as Hk.
    destruct (isReserved k) eqn:Hres.
    - assert (Hd : exists d, In (k, d) [("dueDate", "2015-11-02");
                                        ("dueDateEnd", "2035-11-02");
                                        ("page", "0"); ("size", "100")]).
      { unfold isReserved, reserved in Hres. cbn [existsb] in Hres.
        repeat (apply orb_true_iff in Hres as [Hres|Hres]); try discriminate;
          apply String.eqb_eq in Hres; subst k; eexists; cbn [In]; eauto 6. }
      destruct Hd as [d Hd]. rewrite (get_reserved k d q Hd), Hget in Hk.
      unfold orDefault in Hk. rewrite Hv in Hk. exact Hk.
    - rewrite (get_unreserved k q Hres), Hget in Hk. exact Hk. }
  split; [exact Hgiven|]. split; [|split; [|split]].
  - intros k s Hget Hs.
    destruct (Hgiven k (Str s) Hget) as (s' & [= <-] & Htext); [|exact Htext].
    cbn [given]. apply negb_true_iff. now apply String.eqb_neq.
  - intros k items Hget.
    destruct (Hgiven k _ Hget eq_refl) as (s' & Hrender & Htext).
    rewrite Htext. f_equal.
    assert (Hjoin : render (Arr (map Str items)) = Ok (String.concat "," items)).
    { clear. cbn [render]. induction items as [|a rest IH]; [reflexivity|].
      destruct rest as [|b rest']; [reflexivity|].
      cbn [map] in *. cbn [render bind] in *. rewrite IH. reflexivity. }
    rewrite Hjoin in Hrender. now injection Hrender as <-.
  - intros k Hres.
    pose proof (getText_renderAll k _ sent Hsent) as Hk.
    now rewrite (get_unreserved k q Hres) in Hk.
  - intros k d Hin Habsent.
    pose proof (getText_renderAll k _ sent Hsent) as Hk.
    rewrite (get_reserved k d q Hin) in Hk.
    assert (Hd : orDefault (get k q) d = Str d).
    { unfold orDefault. destruct (get k q) as [v|]; [|reflexivity]. now rewrite Habsent. }
    rewrite Hd in Hk. destruct Hk as (s & [= <-] & Htext). exact Htext.
Qed.

(** No parameter is sent twice: when the keys of the request are
    distinct, so are the keys of the upstream query, even if the
    request names the date and paging parameters itself. *)
Theorem queryParams_no_duplicate (q : Entries) :
  List.NoDup (map fst q) -> List.NoDup (map fst (queryParams q)).
Proof.
  intros Hq. unfold queryParams. rewrite map_app, map_map. cbn [map fst].
  rewrite map_id.
  assert (Hrest : List.NoDup (List.filter (fun k => negb (isReserved k)) (map fst q))).
  { now apply List.NoDup_filter. }
  assert (Hout : forall k, In k reserved ->
                   ~ In k (List.filter (fun k => negb (isReserved k)) (map fst q))).
  { intros k Hk Hin. apply filter_In in Hin as [_ Hnr].
    apply negb_true_iff in Hnr. unfold isReserved in Hnr.
    assert (Hyes : existsb (String.eqb k) reserved = true).
    { apply existsb_exists. exists k. split; [assumption|apply String.eqb_refl]. }
    congruence. }
  cbn [app]. repeat (apply List.NoDup_cons; [cbn [In]|]).
  - intros [H|[H|[H|H]]]; try discriminate.
    apply (Hout "dueDate"); [cbn; tauto|assumption].
  - intros [H|[H|H]]; try discriminate.
    apply (Hout "dueDateEnd"); [cbn; tauto|assumption].
  - intros [H|H]; try discriminate.
    apply (Hout "page"); [cbn; tauto|assumption].
  - intros H. apply (Hout "size"); [cbn; tauto|assumption].
  - exact Hrest.
Qed.

End QueryParameters.

(** ** Proxy routes of the authorization-code server *)

Section ProxyRoutes.
Context `{rt : Coercions}.
Variable baseUrl : string.
Import Proxy.

(** Without a token no route calls the upstream API: each answers 401
    with [requiresAuth: true] and leaves the world as
    [getValidAccessToken] left it. *)
Theorem no_token_no_upstream_call (now : Z) (net : Endpoint) (upstream : Upstream)
    (w : AuthCode.World) (e : JsError) :
  fst (AuthCode.getValidAccessToken now net w) = Throw e ->
  let refused :=
    {| answer := {| status := 401;
                    json := JObj [("error", JStr "Authentication required");
                                  ("requiresAuth", JBool true)] |};
       world := snd (AuthCode.getValidAccessToken now net w);
       calls := [] |} in
  (forall query, listActivities baseUrl query now net upstream w = refused)
  /\ (forall id, getActivity baseUrl id now net upstream w = refused)
  /\ (forall reqMethod originalUrl reqBody,
        forward baseUrl reqMethod originalUrl reqBody now net upstream w = refused).
Proof.
  intros Hthrow refused. subst refused.
  pose proof (getValidAccessToken_throws now net w e Hthrow) as ->.
  unfold listActivities, getActivity, forward.
  destruct (AuthCode.getValidAccessToken now net w) as [[token|err] w'];
    [discriminate|].
  simpl in Hthrow. injection Hthrow as ->. repeat split.
Qed.

(** A route calls the upstream API at most once, and the token it
    sends is the access token found in the storage when it is done. *)
Theorem upstream_call_carries_stored_token (now : Z) (net : Endpoint)
    (upstream : Upstream) (w : AuthCode.World) :
  let fresh (served : Served) :=
    (length (calls served) <= 1)%nat
    /\ Forall (fun c => bearer c
                        = AuthCode.accessToken (AuthCode.tokenStorage (world served)))
              (calls served) in
  (forall query, fresh (listActivities baseUrl query now net upstream w))
  /\ (forall id, fresh (getActivity baseUrl id now net upstream w))
  /\ (forall reqMethod originalUrl reqBody,
        fresh (forward baseUrl reqMethod originalUrl reqBody now net upstream w)).
Proof.
  intros fresh. subst fresh. cbv beta.
  pose proof (getValidAccessToken_returns_stored now net w) as Hstored.
  unfold listActivities, getActivity, forward.
  destruct (AuthCode.getValidAccessToken now net w) as [[token|err] w'];
    cbn [fst snd] in Hstored.
  - specialize (Hstored token eq_refl).
    repeat split; intros;
      try match goal with
      | |- context [Query.searchParams ?q] => destruct (Query.searchParams q) as [sent|e]
      end;
      try match goal with
      | |- context [upstream ?c] => destruct (upstream c) as [[st body]|e']
      end; cbn; auto.
  - repeat split; intros; cbn; auto.
Qed.

Lemma stripPrefix_app (needle rest : string) :
  stripPrefix needle (needle ++ rest) = Some rest.
Proof.
  induction needle as [|c needle IH]; simpl; [now destruct rest|].
  now rewrite Ascii.eqb_refl.
Qed.

Lemma removeFirst_prefix (needle rest : string) :
  removeFirst needle (needle ++ rest) = rest.
Proof.
  assert (Hstep : forall s, removeFirst needle s
                    = match stripPrefix needle s with
                      | Some r => r
                      | None => match s with
                                | EmptyString => EmptyString
                                | String c s' => String c (removeFirst needle s')
                                end
                      end) by (intros s; destruct s; reflexivity).
  now rewrite Hstep, stripPrefix_app.
Qed.

Lemma stripPrefix_startsWith (needle s : string) :
  startsWith needle s = false -> stripPrefix needle s = None.
Proof.
  revert s. induction needle as [|c needle IH]; intros s; simpl; [discriminate|].
  destruct s as [|b s]; [reflexivity|].
  destruct (Ascii.eqb c b); simpl; [apply IH|reflexivity].
Qed.

Lemma removeFirst_absent (needle s : string) :
  includes needle s = false -> removeFirst needle s = s.
Proof.
  induction s as [|c s IH]; simpl; intros Hno;
    apply orb_false_iff in Hno as [Hstart Hrest];
    rewrite (stripPrefix_startsWith _ _ Hstart); [reflexivity|].
  now rewrite IH.
Qed.

(** The generic route forwards a URL that starts with [/api] to the
    same path under the base URL.  A URL in which [/api] does not occur
    as written (the route matches [/API/...] too) is forwarded with
    [/api] put in front of it. *)
Theorem forward_url_round_trip :
  (forall rest : string, forwardUrl baseUrl ("/api" ++ rest) = baseUrl ++ "/api" ++ rest)
  /\ (forall originalUrl : string,
        includes "/api" originalUrl = false ->
        forwardUrl baseUrl originalUrl = baseUrl ++ "/api" ++ originalUrl).
Proof.
  unfold forwardUrl. split.
  - intros rest.
    now rewrite removeFirst_prefix.
  - intros originalUrl Hno. now rewrite removeFirst_absent.
Qed.

End ProxyRoutes.

(** ** Concrete runs of the further properties *)

Section FurtherRuns.
Import Samples.

Lemma failed_token_call_keeps_storage_witness :
  let w := authCodeWorld (JStr "tok-1") (JStr "ref-1") 600000 in
  let c := clientWorld (JStr "tok-1") 600000 in
  (AuthCode.tokenStorage
     (snd (AuthCode.exchangeCodeForTokens (rt := plainCoercions) (JStr "code-1") down w))
   = AuthCode.tokenStorage w
   /\ AuthCode.posts
        (snd (AuthCode.exchangeCodeForTokens (rt := plainCoercions) (JStr "code-1") down w))
      = (AuthCode.posts w ++ [AuthorizationCodeGrant (JStr "code-1")])%list)
  /\ AuthCode.tokenStorage (snd (AuthCode.refreshAccessToken (rt := plainCoercions) down w))
     = AuthCode.tokenStorage w
  /\ ClientCredentials.tokenStorage
       (snd (ClientCredentials.getAccessToken (rt := plainCoercions) down c))
     = ClientCredentials.tokenStorage c.
Proof.
  intros w c.
  destruct (failed_token_call_keeps_storage (rt := plainCoercions) (JStr "code-1") down)
    as (Hexchange & Hrefresh & Hclient).
  split; [|split].
  - destruct (Hexchange w _ eq_refl) as (Hposts & Hkeep & _).
    split; [apply Hkeep; reflexivity|exact Hposts].
  - destruct (Hrefresh w _ eq_refl) as (Hkeep & _). apply Hkeep. right. reflexivity.
  - destruct (Hclient c _ eq_refl) as (Hkeep & _). apply Hkeep. reflexivity.
Defined.

Lemma client_failure_keeps_stale_token_witness :
  let c := clientWorld (JStr "tok-0") 1000 in
  (fst (ClientCredentials.getValidAccessToken (rt := plainCoercions) 5000 down c)
   = Throw ClientCredentials.authenticationFailed
   /\ ClientCredentials.tokenStorage
        (snd (ClientCredentials.getValidAccessToken (rt := plainCoercions) 5000 down c))
      = ClientCredentials.tokenStorage c
   /\ ClientCredentials.healthAuthenticated
        (snd (ClientCredentials.getValidAccessToken (rt := plainCoercions) 5000 down c))
      = true)
  /\ (fst (ClientCredentials.getValidAccessToken (rt := plainCoercions) 5000 crooked c)
      = Throw ClientCredentials.authenticationFailed
      /\ ClientCredentials.expiresAt
           (ClientCredentials.tokenStorage
              (snd (ClientCredentials.getValidAccessToken (rt := plainCoercions) 5000
                      crooked c)))
         = JNum (Int 1000)).
Proof.
  intros c. split.
  - destruct (client_failure_keeps_stale_token (rt := plainCoercions) 5000 down c
                ClientCredentials.authenticationFailed eq_refl) as (_ & _ & Hkeep & _).
    destruct (Hkeep eq_refl) as [Hsame Hhealth].
    split; [reflexivity|]. split; [exact Hsame|]. rewrite Hhealth. reflexivity.
  - destruct (client_failure_keeps_stale_token (rt := plainCoercions) 5000 crooked c
                ClientCredentials.authenticationFailed eq_refl) as (_ & Hexp & _).
    split; [reflexivity|exact Hexp].
Defined.

Lemma refresh_rotates_tokens_witness :
  let w := authCodeWorld (JStr "tok-1") (JStr "ref-1") 0 in
  let after := AuthCode.tokenStorage
                 (snd (AuthCode.refreshAccessToken (rt := plainCoercions) issuer w)) in
  AuthCode.accessToken after = JStr "tok-2"
  /\ AuthCode.refreshToken after = JStr "ref-1".
Proof.
  intros w after.
  destruct (refresh_rotates_tokens (rt := plainCoercions) issuer w
              (JObj [("access_token", JStr "tok-2"); ("expires_in", JNum (Int 3600))])
              eq_refl eq_refl eq_refl) as (Haccess & _ & Hkept & _).
  split; [exact Haccess|]. apply Hkept. reflexivity.
Defined.

Lemma refresh_then_reuse_witness :
  let w := authCodeWorld (JStr "tok-1") (JStr "ref-1") 0 in
  let w1 := snd (AuthCode.getValidAccessToken (rt := plainCoercions) 1000 issuer w) in
  fst (AuthCode.getValidAccessToken (rt := plainCoercions) 1000 issuer w) = Ok (JStr "tok-2")
  /\ AuthCode.getValidAccessToken (rt := plainCoercions) 2000 down w1
     = (Ok (JStr "tok-2"), w1).
Proof.
  intros w w1.
  apply (refresh_then_reuse (rt := plainCoercions) 1000 2000 3600 issuer down w
           (JObj [("access_token", JStr "tok-2"); ("expires_in", JNum (Int 3600))]));
    reflexivity.
Defined.

Lemma acquire_then_reuse_witness :
  let c := ClientCredentials.world_init in
  let c1 := snd (ClientCredentials.getValidAccessToken (rt := plainCoercions) 1000 issuer c) in
  fst (ClientCredentials.getValidAccessToken (rt := plainCoercions) 1000 issuer c)
  = Ok (JStr "tok-2")
  /\ ClientCredentials.getValidAccessToken (rt := plainCoercions) 2000 down c1
     = (Ok (JStr "tok-2"), c1).
Proof.
  intros c c1.
  apply (acquire_then_reuse (rt := plainCoercions) 1000 2000 3600 issuer down c
           (JObj [("access_token", JStr "tok-2"); ("expires_in", JNum (Int 3600))]));
    reflexivity.
Defined.

Lemma short_lived_token_not_cached_witness :
  let c := ClientCredentials.world_init in
  let c1 := snd (ClientCredentials.getValidAccessToken (rt := plainCoercions) 1000 brief c) in
  ClientCredentials.posts
    (snd (ClientCredentials.getValidAccessToken (rt := plainCoercions) 1000 brief c1))
  = (ClientCredentials.posts c1 ++ [ClientCredentialsGrant])%list.
Proof.
  intros c c1.
  apply (short_lived_token_not_cached (rt := plainCoercions) 1000 1000 brief brief c
           (JObj [("access_token", JStr "tok-3"); ("expires_in", JNum (Int 300))]));
    try reflexivity.
  left. exists 300%Z. repeat split; discriminate.
Defined.

Lemma token_failure_is_401_witness :
  errorResponse "Authentication required"
    (AuthCode.authenticationRequired)
  = {| status := 401;
       json := JObj [("error", JStr "Authentication required");
                     ("requiresAuth", JBool true)] |}
  /\ errorResponse "Authentication failed" ClientCredentials.authenticationFailed
     = {| status := 401;
          json := JObj [("error", JStr "Authentication failed");
                        ("requiresAuth", JBool true)] |}.
Proof.
  destruct (token_failure_is_401 (rt := plainCoercions) 5000 down) as [Hauth Hclient].
  split.
  - apply (Hauth (authCodeWorld (JStr "tok-1") (JStr "ref-1") 1000)). reflexivity.
  - apply (Hclient (clientWorld (JStr "tok-1") 1000)). reflexivity.
Defined.

Lemma callback_guards_witness :
  let w := authCodeWorld (JStr "tok-1") (JStr "ref-1") 600000 in
  AuthCode.authCallback (rt := plainCoercions) (JStr "access_denied") (JStr "code-1") issuer w
  = w.
Proof.
  intros w.
  apply (proj1 (callback_guards (rt := plainCoercions) (JStr "access_denied")
                  (JStr "code-1") issuer w)).
  left. reflexivity.
Defined.

Lemma callback_restores_witness :
  fst (AuthCode.getValidAccessToken (rt := plainCoercions) 2000 down
         (AuthCode.authCallback (rt := plainCoercions) JUndefined (JStr "code-1") issuer
            AuthCode.world_init))
  = Ok (JStr "tok-2").
Proof.
  apply (callback_restores (rt := plainCoercions) (JStr "code-1")
           (JObj [("access_token", JStr "tok-2"); ("expires_in", JNum (Int 3600))])
           issuer down 2000 3600 AuthCode.world_init); reflexivity.
Defined.

Lemma errorResponse_shape_witness :
  let e := {| message := "Request failed with status code 503";
              response := Some (503%Z, JObj [("message", JStr "maintenance")]) |} in
  status (errorResponse "Authentication failed" e) <> 0%Z
  /\ truthy (prop (json (errorResponse "Authentication failed" e)) "error") = true.
Proof.
  intros e.
  destruct (errorResponse_shape "Authentication failed" e) as (Hstatus & Herror & _).
  - discriminate.
  - split; [exact Hstatus|exact Herror].
Defined.

Lemma last_write_wins_witness :
  Deposits.getStatus (Some "act-17")
    (snd (Deposits.setStatus (Some "act-17") (Deposits.flagsBody false true)
            "2024-05-01T10:00:05.000Z"
            (snd (Deposits.setStatus (Some "act-17") (Deposits.flagsBody true false)
                    "2024-05-01T10:00:00.000Z" Deposits.depositsData_init))))
  = {| status := 200;
       json := JObj [("depositReturnComplete", JBool false);
                     ("depositTransferredToNewStudio", JBool true);
                     ("updatedAt", JStr "2024-05-01T10:00:05.000Z")] |}.
Proof.
  apply (last_write_wins "act-17" (Deposits.flagsBody true false)
           (Deposits.flagsBody false true) "2024-05-01T10:00:00.000Z"
           "2024-05-01T10:00:05.000Z" true false false true Deposits.depositsData_init);
    [discriminate|reflexivity..].
Defined.

Lemma put_answer_is_next_get_witness :
  let put := Deposits.setStatus (Some "act-17") (Deposits.flagsBody true false)
               "2024-05-01T10:00:00.000Z" Deposits.depositsData_init in
  Deposits.getStatus (Some "act-17") (snd put)
  = {| status := 200; json := prop (json (fst put)) "data" |}.
Proof.
  intros put.
  apply (put_answer_is_next_get "act-17" (Deposits.flagsBody true false)
           "2024-05-01T10:00:00.000Z" Deposits.depositsData_init).
  reflexivity.
Defined.


Lemma get_answers_two_booleans_witness :
  let d := snd (Deposits.setStatus (Some "__proto__") (Deposits.flagsBody true true)
                  "2024-05-01T10:00:00.000Z" Deposits.depositsData_init) in
  status (Deposits.getStatus (Some "act-17") d) = 200%Z
  /\ exists r t : bool,
      prop (json (Deposits.getStatus (Some "act-17") d)) "depositReturnComplete" = JBool r
      /\ prop (json (Deposits.getStatus (Some "act-17") d)) "depositTransferredToNewStudio"
         = JBool t.
Proof.
  intros d. apply (get_answers_two_booleans "act-17" d); [discriminate|reflexivity].
Defined.

Lemma getStatus_never_set_witness :
  let puts := [ {| Deposits.putId := Some "act-1";
                   Deposits.putBody := Deposits.flagsBody true true;
                   Deposits.putAt := "2024-05-01T10:00:00.000Z" |};
                {| Deposits.putId := Some "__proto__";
                   Deposits.putBody := Deposits.flagsBody true false;
                   Deposits.putAt := "2024-05-01T10:00:05.000Z" |} ] in
  Deposits.getStatus (Some "act-2") (Deposits.setAll Deposits.depositsData_init puts)
  = {| status := 200; json := Deposits.defaultDeposits |}.
Proof.
  intros puts. apply (getStatus_never_set "act-2" puts); [discriminate|reflexivity|].
  repeat constructor; discriminate.
Defined.

Lemma setStatus_frame_witness :
  Deposits.getField
    (snd (Deposits.setStatus (Some "act-1") (Deposits.flagsBody true true)
            "2024-05-01T10:00:00.000Z" Deposits.depositsData_init)) "act-2"
  = Deposits.getField Deposits.depositsData_init "act-2".
Proof.
  apply (setStatus_frame "act-1" "act-2" (Deposits.flagsBody true true)
           "2024-05-01T10:00:00.000Z" Deposits.depositsData_init); discriminate.
Defined.

Lemma filteredContent_sound_witness :
  let kept := [Activities.activity "CLEANING" "x"] in
  sublist kept threeActivities
  /\ Forall (fun a => Activities.keep a = Ok true) kept
  /\ Activities.filteredContent kept = Ok kept.
Proof.
  intros kept. apply (filteredContent_sound threeActivities kept). reflexivity.
Defined.

Lemma null_element_fails_page_witness :
  let fields := [("content", JArr (threeActivities ++ [JNull]))] in
  status (Activities.listActivities (JObj fields)) = 500%Z
  /\ status (Inventory.listActivities (JObj fields)) = 500%Z.
Proof.
  intros fields.
  apply (null_element_fails_page fields (threeActivities ++ [JNull]) JNull);
    [reflexivity| |reflexivity].
  cbn. tauto.
Defined.

Lemma inventory_filter_rule_witness :
  let fields := [("content", JArr threeActivities); ("totalElements", JNum (Int 250))] in
  let kept := List.filter
                (fun a => Activities.subjectContains a Activities.inventoryCheck)
                threeActivities in
  let out := json (Inventory.listActivities (JObj fields)) in
  status (Inventory.listActivities (JObj fields)) = 200%Z
  /\ prop out "content" = JArr kept
  /\ prop out "numberOfElements" = JNum (Int (Z.of_nat (length kept)))
  /\ prop out "totalElements" = JNum (Int (Z.of_nat (length kept)))
  /\ prop out "filtered" = JBool true
  /\ prop out "originalTotalElements" = objGet "totalElements" fields.
Proof.
  intros fields kept out.
  apply (inventory_filter_rule fields threeActivities); reflexivity.
Defined.

Lemma filters_disjoint_witness :
  let a := Activities.activity "CLEANING" "Inventory Check - Departure" in
  exists c : bool, Activities.keep a = Ok c /\ Inventory.keep a = Ok (negb c).
Proof.
  intros a. apply (proj2 (filters_disjoint a)); reflexivity.
Defined.

Lemma getActivity_only_cleaning_witness :
  let a := Activities.activity "OTHER" "x" in
  (Inventory.getActivity a = {| status := 200; json := a |}
   /\ (truthy a = true -> prop a "activityType" = JStr "CLEANING"))
  \/ (Inventory.getActivity a = Inventory.notCleaning a
      /\ truthy a = true
      /\ prop a "activityType" <> JStr "CLEANING").
Proof.
  intros a. exact (getActivity_only_cleaning a).
Defined.

Lemma dropped_from_list_served_by_id_witness :
  let fields := [("activityType", JStr "CLEANING");
                 ("subject", JStr "Inventory Check - Departure, flat 4")] in
  Activities.keep (JObj fields) = Ok false
  /\ Inventory.getActivity (JObj fields) = {| status := 200; json := JObj fields |}.
Proof.
  intros fields.
  apply (dropped_from_list_served_by_id fields "Inventory Check - Departure, flat 4");
    reflexivity.
Defined.

Lemma caller_parameters_reach_upstream_witness :
  let q := [("page", Query.Str "2");
            ("tag", Query.Arr [Query.Str "a"; Query.Str "b"]);
            ("size", Query.Str EmptyString)] in
  let sent := [("dueDate", "2015-11-02"); ("dueDateEnd", "2035-11-02");
               ("page", "2"); ("size", "100"); ("tag", "a,b")] in
  Query.searchParams q = Ok sent
  /\ Query.getText "page" sent = Some "2"
  /\ Query.getText "tag" sent = Some "a,b"
  /\ Query.getText "size" sent = Some "100".
Proof.
  intros q sent.
  destruct (caller_parameters_reach_upstream q) as [Hsent _].
  destruct (Hsent sent eq_refl) as (_ & Hgiven & Hrepeated & _ & Hdefault).
  split; [reflexivity|]. split; [|split].
  - apply Hgiven; [reflexivity|discriminate].
  - apply (Hrepeated "tag" ["a"; "b"]). reflexivity.
  - apply Hdefault; [cbn; tauto|reflexivity].
Defined.

Lemma queryParams_no_duplicate_witness :
  List.NoDup (map fst (Query.queryParams [("page", Query.Str "2");
                                          ("status", Query.Str "OPEN")])).
Proof.
  apply (queryParams_no_duplicate [("page", Query.Str "2"); ("status", Query.Str "OPEN")]).
  apply List.NoDup_cons; [cbn; intros [Heq|[]]; discriminate Heq|].
  apply List.NoDup_cons; [cbn; tauto|]. apply List.NoDup_nil.
Defined.

Lemma no_token_no_upstream_call_witness :
  Proxy.forward (rt := plainCoercions) "https://upstream.example" "DELETE"
    "/api/v3/activities/17" JUndefined 5000 down unreachable
    (authCodeWorld (JStr "tok-1") (JStr "ref-1") 1000)
  = {| Proxy.answer := {| status := 401;
                          json := JObj [("error", JStr "Authentication required");
                                        ("requiresAuth", JBool true)] |};
       Proxy.world := snd (AuthCode.getValidAccessToken (rt := plainCoercions) 5000 down
                             (authCodeWorld (JStr "tok-1") (JStr "ref-1") 1000));
       Proxy.calls := [] |}.
Proof.
  apply (no_token_no_upstream_call (rt := plainCoercions) "https://upstream.example"
           5000 down unreachable (authCodeWorld (JStr "tok-1") (JStr "ref-1") 1000)
           AuthCode.authenticationRequired eq_refl).
Defined.

Lemma forward_url_round_trip_witness :
  Proxy.forwardUrl "https://upstream.example" "/API/v3/units"
  = "https://upstream.example/api/API/v3/units".
Proof.
  apply (proj2 (forward_url_round_trip "https://upstream.example") "/API/v3/units").
  reflexivity.
Defined.

End FurtherRuns.
